(** * json_schema_to_gbnf: the schema-to-grammar compiler of
      src/llm/json_schema_to_gbnf.py, embedded and verified.

    The Python function [json_schema_to_gbnf] and its six local helpers are
    translated line by line.  The loaded document is a value of [json]; every
    Python operation the compiler applies to such a value ([in], subscript,
    [.get], truthiness, [==], iteration, [str]) is a function of module [Py];
    exceptions and the call-depth bound live in the [outcome] monad. *)

From Stdlib Require Import String Ascii List ZArith Lia Bool Arith.
From Stdlib Require Import SpecFloat DecimalString.
Import ListNotations.
Set Warnings "-register-all".
Local Open Scope list_scope.
Local Open Scope string_scope.

(** ** The loaded document *)

(** What [json.loads] / [yaml.safe_load] hand to the compiler.  A dict keeps
    its insertion order, which the emitted grammar shows, so its entries are an
    association list (keys unique, as the loader builds them). *)
Inductive json : Type :=
| JNull
| JBool (b : bool)
| JInt (n : Z)
| JFloat (x : spec_float)
| JStr (s : string)
| JList (items : list json)
| JDict (entries : list (string * json)).

(** ** Exceptions *)

(** The reasons for which the interpreter itself raises [TypeError] here. *)
Inductive type_fault : Type :=
| NotContainer (v : json)    (* [key in v], v without membership test *)
| BadSubscript (v : json)    (* [v[key]] with a str key, v not a dict *)
| Unhashable (v : json)      (* v used as a dict key or set element *)
| NotIterable (v : json).    (* iteration over v *)

Inductive exn : Type :=
| ValueError (msg : string)
| TypeError (why : type_fault)
| KeyError (key : string)
| AttributeError (obj : json) (attr : string).

(** The texts the Python runtime produces and the repository does not define:
    [repr] of a float, [repr] of a str, and [str(e)] of an exception raised by
    the interpreter.  They are parameters of the model. *)
Record interpreter : Type := {
  float_repr : spec_float -> string;
  str_repr : string -> string;
  fault_text : exn -> string
}.

(** ** Outcomes: a result, a raised exception, or the call bound reached *)

Inductive outcome (A : Type) : Type :=
| Ret (a : A)
| Raise (e : exn)
| OutOfFuel.
Arguments Ret {A} a.
Arguments Raise {A} e.
Arguments OutOfFuel {A}.

Definition bind {A B : Type} (c : outcome A) (k : A -> outcome B) : outcome B :=
  match c with
  | Ret a => k a
  | Raise e => Raise e
  | OutOfFuel => OutOfFuel
  end.

Notation "x <- c ;; k" := (bind c (fun x => k))
  (at level 61, c at next level, right associativity).

(** [try: c except ValueError as e: h (str e)] *)
Definition except_ValueError {A : Type} (c : outcome A) (h : string -> outcome A)
  : outcome A :=
  match c with
  | Raise (ValueError msg) => h msg
  | other => other
  end.

(** [try: c except Exception as e: h e] *)
Definition except_Exception {A : Type} (c : outcome A) (h : exn -> outcome A)
  : outcome A :=
  match c with
  | Raise e => h e
  | other => other
  end.

Definition returns {A : Type} (c : outcome A) : bool :=
  match c with Ret _ => true | _ => false end.

Definition raises {A : Type} (c : outcome A) : bool :=
  match c with Raise _ => true | _ => false end.

(** ** Strings *)

(** The double quote, which the grammar text puts around names and literals. *)
Definition dq : string := String (ascii_of_nat 34) EmptyString.

(** [sep.join(parts)] *)
Fixpoint join (sep : string) (parts : list string) : string :=
  match parts with
  | [] => EmptyString
  | [p] => p
  | p :: rest => p ++ sep ++ join sep rest
  end.

(** [needle in hay] on two strs. *)
Fixpoint str_contains (needle hay : string) : bool :=
  prefix needle hay ||
  match hay with
  | EmptyString => false
  | String _ rest => str_contains needle rest
  end.

(** A byte [10xxxxxx] continues a code point of the UTF-8 text. *)
Definition is_continuation (c : ascii) : bool :=
  let n := nat_of_ascii c in (128 <=? n)%nat && (n <? 192)%nat.

Definition starts_with_continuation (s : string) : bool :=
  match s with
  | EmptyString => false
  | String c _ => is_continuation c
  end.

(** The characters of a str, one string per code point. *)
Fixpoint str_chars (s : string) : list string :=
  match s with
  | EmptyString => []
  | String c rest =>
      if starts_with_continuation rest then
        match str_chars rest with
        | h :: t => String c h :: t
        | [] => [String c EmptyString]
        end
      else String c EmptyString :: str_chars rest
  end.

Definition ends_with (s suffix : string) : Prop :=
  exists front, s = front ++ suffix.

Definition starts_with (s pre : string) : Prop :=
  exists back, s = pre ++ back.

(** ** Python's operations on loaded values *)

Module Py.

Definition is_dict (v : json) : bool :=
  match v with JDict _ => true | _ => false end.

Definition is_bool (v : json) : bool :=
  match v with JBool _ => true | _ => false end.

(** Lists and dicts are the unhashable values of a loaded document. *)
Definition hashable (v : json) : bool :=
  match v with JList _ | JDict _ => false | _ => true end.

(** [x == n] for a float [x] and an integer [n]. *)
Definition float_eq_int (x : spec_float) (n : Z) : bool :=
  match x with
  | S754_zero _ => (n =? 0)%Z
  | S754_finite s m e =>
      let mag := Z.pos m in
      let sign_ok := if s then (n <? 0)%Z else (0 <? n)%Z in
      sign_ok &&
      (if (0 <=? e)%Z then (mag * 2 ^ e =? Z.abs n)%Z
       else (mag =? Z.abs n * 2 ^ (- e))%Z)
  | _ => false
  end.

(** [bool(v)] *)
Definition truthy (v : json) : bool :=
  match v with
  | JNull => false
  | JBool b => b
  | JInt n => negb (n =? 0)%Z
  | JFloat x => negb (float_eq_int x 0)
  | JStr s => negb (s =? EmptyString)
  | JList l => match l with [] => false | _ => true end
  | JDict es => match es with [] => false | _ => true end
  end.

(** [v == n] for an int literal [n]: bools and floats compare by value. *)
Definition eq_int (v : json) (n : Z) : bool :=
  match v with
  | JInt m => (m =? n)%Z
  | JBool b => ((if b then 1 else 0) =? n)%Z
  | JFloat x => float_eq_int x n
  | _ => false
  end.

(** [v == s] for a str literal [s]. *)
Definition eq_str (v : json) (s : string) : bool :=
  match v with
  | JStr t => t =? s
  | _ => false
  end.

(** Lookup in a dict's entries. *)
Fixpoint dict_get (key : string) (entries : list (string * json)) : option json :=
  match entries with
  | [] => None
  | (k, v) :: rest => if k =? key then Some v else dict_get key rest
  end.

Definition dict_has (key : string) (entries : list (string * json)) : bool :=
  match dict_get key entries with Some _ => true | None => false end.

(** [key in v] for a str [key]. *)
Definition contains (key : string) (v : json) : outcome bool :=
  match v with
  | JDict es => Ret (dict_has key es)
  | JList l => Ret (existsb (fun x => eq_str x key) l)
  | JStr s => Ret (str_contains key s)
  | _ => Raise (TypeError (NotContainer v))
  end.

(** [v[key]] for a str [key]. *)
Definition getitem (v : json) (key : string) : outcome json :=
  match v with
  | JDict es =>
      match dict_get key es with
      | Some x => Ret x
      | None => Raise (KeyError key)
      end
  | _ => Raise (TypeError (BadSubscript v))
  end.

(** [v.get(key, default)] *)
Definition get (v : json) (key : string) (default : json) : outcome json :=
  match v with
  | JDict es =>
      match dict_get key es with
      | Some x => Ret x
      | None => Ret default
      end
  | _ => Raise (AttributeError v "get")
  end.

(** [v.items()] *)
Definition items (v : json) : outcome (list (string * json)) :=
  match v with
  | JDict es => Ret es
  | _ => Raise (AttributeError v "items")
  end.

(** The values [for x in v] goes through. *)
Definition iter (v : json) : outcome (list json) :=
  match v with
  | JList l => Ret l
  | JStr s => Ret (map JStr (str_chars s))
  | JDict es => Ret (map (fun kv => JStr (fst kv)) es)
  | _ => Raise (TypeError (NotIterable v))
  end.

(** [set(v)]: the elements, each of which must be hashable. *)
Definition set (v : json) : outcome (list json) :=
  xs <- iter v ;;
  match find (fun x => negb (hashable x)) xs with
  | Some bad => Raise (TypeError (Unhashable bad))
  | None => Ret xs
  end.

(** [name in s] for a str [name] and a set [s]. *)
Definition set_mem (name : string) (s : list json) : bool :=
  existsb (fun x => eq_str x name) s.

(** [table.get(key)] on a dict literal with str keys. *)
Definition table_get {A : Type} (table : list (string * A)) (key : json)
  : outcome (option A) :=
  match key with
  | JList _ | JDict _ => Raise (TypeError (Unhashable key))
  | JStr s =>
      Ret (option_map snd (find (fun kv => fst kv =? s) table))
  | _ => Ret None
  end.

Definition int_str (n : Z) : string := NilZero.string_of_int (Z.to_int n).

Section Text.
Variable py : interpreter.

(** [repr(v)] *)
Fixpoint repr (v : json) : string :=
  match v with
  | JNull => "None"
  | JBool b => if b then "True" else "False"
  | JInt n => int_str n
  | JFloat x => float_repr py x
  | JStr s => str_repr py s
  | JList l => "[" ++ join ", " (map repr l) ++ "]"
  | JDict es =>
      "{" ++ join ", "
               (map (fun kv => let '(k, x) := kv in str_repr py k ++ ": " ++ repr x) es)
          ++ "}"
  end.

(** [str(v)], which is what an f-string interpolates. *)
Definition str (v : json) : string :=
  match v with
  | JStr s => s
  | _ => repr v
  end.

(** [str(e)] of a caught exception. *)
Definition exn_str (e : exn) : string :=
  match e with
  | ValueError msg => msg
  | _ => fault_text py e
  end.
End Text.

End Py.

(** ** The compiler *)

(** The functions [process_type] can dispatch to ([type_handlers]). *)
Inductive handler : Type :=
| HString | HInteger | HNumber | HBoolean | HNull | HArray | HObject.

Definition type_handlers : list (string * handler) :=
  [("string", HString); ("integer", HInteger); ("number", HNumber);
   ("boolean", HBoolean); ("null", HNull); ("array", HArray);
   ("object", HObject)].

(** The [formats] table of [process_string]. *)
Definition formats : list (string * string) :=
  [("date-time", "<datetime>"); ("date", "<date>");
   ("email", "<email>"); ("uri", "<uri>")].

(** The marker appended to the member of a property that is not required. *)
Definition optional_marker : string := " | ε".

Definition wildcard_any : string := dq ++ "*" ++ dq ++ " : <any>".

(** [rules.append(rule)] *)
Definition rules_append (rules : list string) (rule : string) : list string :=
  (rules ++ [rule])%list.

(** The loop of [process_object]: run [body] on each entry in order, stop at
    the first exception, collect the returned rules. *)
Fixpoint for_each_property (body : string -> json -> outcome string)
    (entries : list (string * json)) : outcome (list string) :=
  match entries with
  | [] => Ret []
  | (name, prop) :: rest =>
      rule <- body name prop ;;
      rules <- for_each_property body rest ;;
      Ret (rule :: rules)
  end.

Section Compiler.

Variable py : interpreter.

Definition process_ref (ref : json) : string := "<ref>".

Definition process_string (definition : json) : outcome string :=
  has_enum <- Py.contains "enum" definition ;;
  if has_enum then
    values <- Py.getitem definition "enum" ;;
    vs <- Py.iter values ;;
    let enum_values := join " | " (map (fun v => dq ++ Py.str py v ++ dq) vs) in
    Ret ("[" ++ enum_values ++ "]")
  else
    has_pattern <- Py.contains "pattern" definition ;;
    if has_pattern then
      pattern <- Py.getitem definition "pattern" ;;
      Ret ("<pattern " ++ Py.str py pattern ++ ">")
    else
      has_format <- Py.contains "format" definition ;;
      if has_format then
        format <- Py.getitem definition "format" ;;
        found <- Py.table_get formats format ;;
        match found with
        | Some token => Ret token
        | None => Ret "<string>"
        end
      else Ret "<string>".

(** The body of the [try] in [process_object]'s loop, given the compiler of
    one property. *)
Definition try_property (process_property : string -> json -> bool -> outcome string)
    (required : list json) (name : string) (prop : json) : outcome string :=
  except_ValueError
    (process_property name prop (Py.set_mem name required))
    (fun msg =>
       Raise (ValueError ("Error processing property '" ++ name ++ "': " ++ msg))).

(** [fuel] bounds the depth of the calls among the four mutually recursive
    helpers; each call takes one unit. *)
Fixpoint process_type (fuel : nat) (definition : json) {struct fuel}
  : outcome string :=
  match fuel with
  | O => OutOfFuel
  | S fuel' =>
      has_type <- Py.contains "type" definition ;;
      if negb has_type then Raise (ValueError "Missing type in definition")
      else
        prop_type <- Py.getitem definition "type" ;;
        found <- Py.table_get type_handlers prop_type ;;
        match found with
        | None => Raise (ValueError ("Unsupported type: " ++ Py.str py prop_type))
        | Some HString => process_string definition
        | Some HInteger => Ret "<integer>"
        | Some HNumber => Ret "<number>"
        | Some HBoolean => Ret "<boolean>"
        | Some HNull => Ret "null"
        | Some HArray => process_array fuel' definition
        | Some HObject => process_object fuel' definition
        end
  end

with process_array (fuel : nat) (definition : json) {struct fuel}
  : outcome string :=
  match fuel with
  | O => OutOfFuel
  | S fuel' =>
      has_items <- Py.contains "items" definition ;;
      if negb has_items then Raise (ValueError "Array definition missing items")
      else
        items <- Py.getitem definition "items" ;;
        items_type <- process_type fuel' items ;;
        min_items <- Py.get definition "minItems" (JInt 0) ;;
        max_items <- Py.get definition "maxItems" (JStr EmptyString) ;;
        if Py.eq_int min_items 0 && negb (Py.truthy max_items) then
          Ret ("[" ++ items_type ++ "*]")
        else if Py.eq_int min_items 1 && negb (Py.truthy max_items) then
          Ret ("[" ++ items_type ++ "+]")
        else
          Ret ("[" ++ items_type ++ "]")
  end

with process_object (fuel : nat) (definition : json) {struct fuel}
  : outcome string :=
  match fuel with
  | O => OutOfFuel
  | S fuel' =>
      properties <- Py.get definition "properties" (JDict []) ;;
      required_names <- Py.get definition "required" (JList []) ;;
      required <- Py.set required_names ;;
      if negb (Py.truthy properties) then Ret "{}"
      else
        entries <- Py.items properties ;;
        rules <- for_each_property
                   (try_property (process_property fuel') required) entries ;;
        additional_props <- Py.get definition "additionalProperties" (JDict []) ;;
        rules <-
          (if Py.truthy additional_props then
             match additional_props with
             | JBool b =>
                 if b then Ret (rules_append rules wildcard_any) else Ret rules
             | _ =>
                 any_type <- process_type fuel' additional_props ;;
                 Ret (rules_append rules (dq ++ "*" ++ dq ++ " : " ++ any_type))
             end
           else Ret rules) ;;
        Ret ("{ " ++ join ", " rules ++ " }")
  end

with process_property (fuel : nat) (name : string) (definition : json)
    (is_required : bool) {struct fuel} : outcome string :=
  match fuel with
  | O => OutOfFuel
  | S fuel' =>
      if negb (Py.is_dict definition) then
        Raise (ValueError ("Invalid property definition for " ++ name))
      else
        has_ref <- Py.contains "$ref" definition ;;
        if has_ref then
          ref <- Py.getitem definition "$ref" ;;
          Ret (process_ref ref)
        else
          fragment <- process_type fuel' definition ;;
          let property_rule := dq ++ name ++ dq ++ " : " ++ fragment in
          if negb is_required then Ret (property_rule ++ optional_marker)
          else Ret property_rule
  end.

Definition json_schema_to_gbnf (fuel : nat) (schema : json) : outcome string :=
  if negb (Py.is_dict schema) then
    Raise (ValueError "Schema must be a dictionary")
  else
    root_type <- Py.get schema "type" JNull ;;
    if negb (Py.eq_str root_type "object") then
      Raise (ValueError "Root schema must be an object type")
    else
      except_Exception (process_object fuel schema)
        (fun e =>
           Raise (ValueError ("Error processing schema: " ++ Py.exn_str py e))).

End Compiler.

(** An interpreter to run the compiler on documents whose output holds no
    float and no message of the interpreter: those texts are left empty, and
    [repr] of a str is right for plain text without quotes. *)
Definition plain_interpreter : interpreter :=
  {| float_repr := fun _ => EmptyString;
     str_repr := fun s => "'" ++ s ++ "'";
     fault_text := fun _ => EmptyString |}.

(** Nesting depth of a document: scalars are leaves. *)
Fixpoint height (v : json) : nat :=
  match v with
  | JList l => S (fold_right (fun x m => Nat.max (height x) m) 0 l)
  | JDict es =>
      S (fold_right (fun kv m => let '(_, x) := kv in Nat.max (height x) m) 0 es)
  | _ => 0
  end.

(** [c] is the call bound reached, or is already [c']: what more fuel may
    change. *)
Definition refines {A : Type} (c c' : outcome A) : Prop :=
  c = OutOfFuel \/ c = c'.

Definition finished {A : Type} (c : outcome A) : Prop := c <> OutOfFuel.

(** ** The error taxonomy, as the code raises it *)

(** The two rejections of the entry point. *)
Definition InvalidSchema (e : exn) : Prop :=
  e = ValueError "Schema must be a dictionary" \/
  e = ValueError "Root schema must be an object type".

Definition MissingType : exn := ValueError "Missing type in definition".

Definition UnsupportedType (name : string) : exn :=
  ValueError ("Unsupported type: " ++ name).

Definition MissingItems : exn := ValueError "Array definition missing items".

Definition InvalidProperty (name : string) : string :=
  "Invalid property definition for " ++ name.

(** The wrapper [process_object] puts around a property's [ValueError]. *)
Definition PropertyError (name cause : string) : exn :=
  ValueError ("Error processing property '" ++ name ++ "': " ++ cause).

(** ** Shapes of well-formed nodes *)

(** [required], when declared, can be made a set: it is a sequence (of
    names). *)
Definition required_usable (es : list (string * json)) : Prop :=
  forall r, Py.dict_get "required" es = Some r ->
            exists names, Py.set r = Ret names.

(** The set [process_object] builds from [required]. *)
Definition required_set (es : list (string * json)) : list json :=
  match Py.dict_get "required" es with
  | Some r => match Py.set r with Ret names => names | _ => [] end
  | None => []
  end.

(** ** Documents used to run the model *)

Definition string_node : json := JDict [("type", JStr "string")].

(** [{"type": "array", "items": {"type": "string"}}] *)
Definition array_root : json :=
  JDict [("type", JStr "array"); ("items", string_node)].

(** [{"type": "object", "additionalProperties": true, "required": ["id"]}] *)
Definition bare_object : json :=
  JDict [("type", JStr "object"); ("additionalProperties", JBool true);
         ("required", JList [JStr "id"])].

(** ** String constraints, as the specification words them *)

(** An enum value between double quotes, as the f-string renders it; for a
    str value the text is the value itself. *)
Definition quoted (py : interpreter) (v : json) : string :=
  dq ++ Py.str py v ++ dq.

(** The format table of the specification: four names have a token of their
    own, anything else is an unconstrained string. *)
Definition format_token (f : json) : string :=
  match f with
  | JStr s =>
      if s =? "date-time" then "<datetime>"
      else if s =? "date" then "<date>"
      else if s =? "email" then "<email>"
      else if s =? "uri" then "<uri>"
      else "<string>"
  | _ => "<string>"
  end.

(** [{"type": "string", "format": "email", "pattern": "^a+$",
      "enum": ["a", "b"]}]: all three constraints at once. *)
Definition crowded_string : list (string * json) :=
  [("type", JStr "string"); ("format", JStr "email");
   ("pattern", JStr "^a+$"); ("enum", JList [JStr "a"; JStr "b"])].

(** The same node without [enum], and without [enum] and [pattern]. *)
Definition pattern_and_format : list (string * json) :=
  [("type", JStr "string"); ("format", JStr "email"); ("pattern", JStr "^a+$")].

Definition format_only (name : string) : list (string * json) :=
  [("type", JStr "string"); ("format", JStr name)].

(** ** Array bounds, as [process_array] tests them *)

(** [min_items == n], with [minItems] defaulting to 0. *)
Definition min_items_is (n : Z) (es : list (string * json)) : bool :=
  match Py.dict_get "minItems" es with
  | Some v => Py.eq_int v n
  | None => (0 =? n)%Z
  end.

(** [not max_items], with [maxItems] defaulting to the empty str. *)
Definition max_items_falsy (es : list (string * json)) : bool :=
  match Py.dict_get "maxItems" es with
  | Some v => negb (Py.truthy v)
  | None => true
  end.

(** [{"type": "array", "items": {"type": "string"}, "maxItems": 0}] *)
Definition array_max_zero : json :=
  JDict [("type", JStr "array"); ("items", string_node); ("maxItems", JInt 0)].

(** [{"type": "array", "items": {"type": "string"}, "maxItems": 3}] *)
Definition array_max_three : json :=
  JDict [("type", JStr "array"); ("items", string_node); ("maxItems", JInt 3)].

(** ** Properties given by reference *)

(** [{"$ref": "#/definitions/user"}] *)
Definition user_ref : json := JDict [("$ref", JStr "#/definitions/user")].

(** [{"type": "object", "properties": {"user": {"$ref": "#/definitions/user"}}}] *)
Definition object_with_ref : json :=
  JDict [("type", JStr "object"); ("properties", JDict [("user", user_ref)])].

(** ** Type dispatch *)

(** The names [type_handlers] knows. *)
Definition supported_types : list string :=
  ["string"; "integer"; "number"; "boolean"; "null"; "array"; "object"].

(** [{"type": ["string", "null"]}]: a union of types, as JSON Schema allows. *)
Definition nullable_string : json :=
  JDict [("type", JList [JStr "string"; JStr "null"])].

(** [{"type": "object", "properties": {"nick": {"type": ["string", "null"]}}}] *)
Definition object_with_union : json :=
  JDict [("type", JStr "object");
         ("properties", JDict [("nick", nullable_string)])].

(** [{"type": "object", "properties": {"nick": {"type": "text"}}}] *)
Definition object_with_text : json :=
  JDict [("type", JStr "object");
         ("properties", JDict [("nick", JDict [("type", JStr "text")])])].

(** ** The members of an object *)

(** The loop of [process_object] on the node's properties, given the fuel of
    the calls to [process_property]. *)
Definition property_rules (py : interpreter) (fuel : nat)
    (es : list (string * json)) (entries : list (string * json))
  : outcome (list string) :=
  for_each_property
    (try_property (process_property py fuel) (required_set es)) entries.

(** The text of an object with the given members. *)
Definition braces (members : list string) : string :=
  "{ " ++ join ", " members ++ " }".

(** The wildcard member for a schema compiled to [fragment]. *)
Definition wildcard_of (fragment : string) : string :=
  dq ++ "*" ++ dq ++ " : " ++ fragment.

(** [{"type": "object",
      "properties": {"id": {"type": "integer"}, "name": {"type": "string"}},
      "required": ["id"], "additionalProperties": A}] *)
Definition two_properties : list (string * json) :=
  [("id", JDict [("type", JStr "integer")]); ("name", string_node)].

Definition record_with (additional : json) : list (string * json) :=
  [("type", JStr "object"); ("properties", JDict two_properties);
   ("required", JList [JStr "id"]); ("additionalProperties", additional)].

(** [{"type": "array", "items": {"$ref": "#/definitions/user"}}] *)
Definition array_of_refs : list (string * json) :=
  [("type", JStr "array"); ("items", user_ref)].

(** [{"type": "object", "properties": {"id": {"type": "integer"}, "tags": 7}}] *)
Definition object_with_number : list (string * json) :=
  [("type", JStr "object");
   ("properties", JDict [("id", JDict [("type", JStr "integer")]);
                         ("tags", JInt 7)])].

(** [{"type": "object", "properties": {"tags": {"type": "array",
      "items": {"type": "object", "properties": {"kind": {"$ref": "#"}}}}}}] *)
Definition nested_schema : json :=
  JDict [("type", JStr "object");
         ("properties",
          JDict [("tags",
                  JDict [("type", JStr "array");
                         ("items",
                          JDict [("type", JStr "object");
                                 ("properties",
                                  JDict [("kind", JDict [("$ref", JStr "#")])])])])])].

(** ** How fragments end *)

Fixpoint last_byte (s : string) : option ascii :=
  match s with
  | EmptyString => None
  | String c EmptyString => Some c
  | String _ rest => last_byte rest
  end.

(** The bytes a compiled fragment can end with: [>], []], [}] and the [l] of
    [null]. *)
Definition closes_fragment (c : ascii) : bool :=
  let n := nat_of_ascii c in
  (n =? 62)%nat || (n =? 93)%nat || (n =? 125)%nat || (n =? 108)%nat.

(** [s] ends with one of those bytes. *)
Definition closed (s : string) : Prop :=
  exists c, last_byte s = Some c /\ closes_fragment c = true.

(** [{"type": "array", "items": true}]: the items schema that accepts
    anything. *)
Definition array_of_anything : json :=
  JDict [("type", JStr "array"); ("items", JBool true)].

(** ** Further documents used to run the compiler *)

(** [{"type": "integer", "minimum": 0, "enum": [1, 2]}] *)
Definition bounded_integer : list (string * json) :=
  [("type", JStr "integer"); ("minimum", JInt 0);
   ("enum", JList [JInt 1; JInt 2])].

(** [{"type": "array", "minItems": 1}]: an array without [items]. *)
Definition array_without_items : list (string * json) :=
  [("type", JStr "array"); ("minItems", JInt 1)].

(** [{"type": "array", "items": {"type": "string"}, "minItems": M}] *)
Definition array_min (m : Z) : list (string * json) :=
  [("type", JStr "array"); ("items", string_node); ("minItems", JInt m)].

(** [{"type": "object", "properties": P}] *)
Definition object_of (properties : json) : list (string * json) :=
  [("type", JStr "object"); ("properties", properties)].

(** [{"type": "object",
      "properties": {"id": {"type": "integer"}, "name": {"type": "string"}},
      "required": R}] *)
Definition record_requiring (required : json) : list (string * json) :=
  [("type", JStr "object"); ("properties", JDict two_properties);
   ("required", required)].

(** [{"id": {"type": "integer"}, "tags": {"type": "array"}, "name": 7}]: the
    second and the third definitions are both faulty. *)
Definition two_faults : list (string * json) :=
  [("id", JDict [("type", JStr "integer")]);
   ("tags", JDict [("type", JStr "array")]);
   ("name", JInt 7)].

(** [{"owner": {"type": "object", "properties": {"age": {"type": "text"}}}}] *)
Definition nested_fault : list (string * json) :=
  [("owner", JDict (object_of (JDict [("age", JDict [("type", JStr "text")])])))].

(** [{"type": "array", "items": {"type": "text"}}] *)
Definition array_of_text : list (string * json) :=
  [("type", JStr "array"); ("items", JDict [("type", JStr "text")])].

(** ** The formatting step of [main] *)

(** The line break the formatting inserts. *)
Definition nl : string := String (ascii_of_nat 10) EmptyString.

(** [s.replace(old, new)] for a non-empty [old], read from the left: at a
    position where [old] starts, [new] is written and the rest of the
    occurrence is skipped, so occurrences that are replaced never overlap;
    any other character is kept. *)
Fixpoint replace_from (old new : string) (skip : nat) (s : string) : string :=
  match s with
  | EmptyString => EmptyString
  | String c rest =>
      match skip with
      | S k => replace_from old new k rest
      | O =>
          if prefix old s
          then new ++ replace_from old new (String.length old - 1) rest
          else String c (replace_from old new O rest)
      end
  end.

(** [s.replace("", new)]: [new] before every character and at the end. *)
Fixpoint replace_empty (new s : string) : string :=
  match s with
  | EmptyString => new
  | String c rest => new ++ String c (replace_empty new rest)
  end.

(** [s.replace(old, new)] *)
Definition str_replace (s old new : string) : string :=
  match old with
  | EmptyString => replace_empty new s
  | String _ _ => replace_from old new 0 s
  end.

(** What [main] does to the grammar when [--pretty] is given. *)
Definition pretty (gbnf : string) : string :=
  let gbnf := str_replace gbnf "{" ("{" ++ nl ++ "  ") in
  let gbnf := str_replace gbnf "}" (nl ++ "}") in
  let gbnf := str_replace gbnf ", " ("," ++ nl ++ "  ") in
  gbnf.

(** The text [main] hands to [save_gbnf]. *)
Definition formatted (pretty_flag : bool) (gbnf : string) : string :=
  if pretty_flag then pretty gbnf else gbnf.

(** A text without brace and without comma. *)
Definition plain_char (c : ascii) : bool :=
  let n := nat_of_ascii c in
  negb ((n =? 123)%nat || (n =? 125)%nat || (n =? 44)%nat).

Fixpoint plain (s : string) : bool :=
  match s with
  | EmptyString => true
  | String c rest => plain_char c && plain rest
  end.

(** * Properties *)

(** ** The outcome monad and the call bound *)

Section Outcome.

Context {A B : Type}.

Lemma refines_refl (c : outcome A) : refines c c.
Proof. now right. Qed.

Lemma refines_out (c : outcome A) : refines OutOfFuel c.
Proof. now left. Qed.

Lemma refines_bind (c c' : outcome A) (k k' : A -> outcome B) :
  refines c c' -> (forall a, refines (k a) (k' a)) ->
  refines (bind c k) (bind c' k').
Proof.
  intros [-> | ->] Hk; [now left|].
  destruct c' as [a | e |]; simpl; [apply Hk | now right | now left].
Qed.

Lemma refines_except_ValueError (c c' : outcome A) (h : string -> outcome A) :
  refines c c' -> refines (except_ValueError c h) (except_ValueError c' h).
Proof. intros [-> | ->]; [now left | now right]. Qed.

Lemma refines_finished (c c' : outcome A) :
  refines c c' -> finished c -> c' = c.
Proof. intros [-> | ->] Hf; [now elim Hf | reflexivity]. Qed.

Lemma finished_bind (c : outcome A) (k : A -> outcome B) :
  finished c -> (forall a, c = Ret a -> finished (k a)) -> finished (bind c k).
Proof.
  unfold finished. destruct c as [a | e |]; simpl; intros Hc Hk.
  - now apply Hk.
  - discriminate.
  - now elim Hc.
Qed.

Lemma finished_except_ValueError (c : outcome A) (h : string -> outcome A) :
  finished c -> (forall msg, finished (h msg)) ->
  finished (except_ValueError c h).
Proof.
  unfold finished. destruct c as [a | [msg | | |] |]; simpl; intros Hc Hh;
    try discriminate; [apply Hh | now elim Hc].
Qed.

End Outcome.

Lemma refines_for_each (b b' : string -> json -> outcome string) entries :
  (forall name prop, refines (b name prop) (b' name prop)) ->
  refines (for_each_property b entries) (for_each_property b' entries).
Proof.
  intros Hb. induction entries as [| [name prop] rest IH]; simpl.
  - apply refines_refl.
  - apply refines_bind; [apply Hb | intros rule].
    apply refines_bind; [apply IH | intros rules; apply refines_refl].
Qed.

Lemma finished_for_each (b : string -> json -> outcome string) entries :
  (forall name prop, In (name, prop) entries -> finished (b name prop)) ->
  finished (for_each_property b entries).
Proof.
  induction entries as [| [name prop] rest IH]; simpl; intros Hb.
  - discriminate.
  - apply finished_bind; [apply Hb; now left | intros rule _].
    apply finished_bind; [apply IH; intros; apply Hb; now right |].
    intros; discriminate.
Qed.

Lemma for_each_length (b : string -> json -> outcome string) entries rules :
  for_each_property b entries = Ret rules -> length rules = length entries.
Proof.
  revert rules. induction entries as [| [name prop] rest IH]; simpl; intros rules H.
  - now inversion H.
  - destruct (b name prop) as [rule | e |]; simpl in H; try discriminate.
    destruct (for_each_property b rest) as [rs | e |]; simpl in H; try discriminate.
    inversion H; subst; simpl. f_equal. now apply IH.
Qed.

(** ** More fuel never changes a finished run *)

Section Fuel.

Variable py : interpreter.

Ltac step_refines :=
  repeat first
    [ apply refines_refl
    | apply refines_out
    | apply refines_bind; [| intros ?]
    | apply refines_except_ValueError
    | apply refines_for_each; intros ? ?
    | match goal with
      | |- refines (if ?c then _ else _) (if ?c then _ else _) => destruct c
      | |- refines (match ?x with _ => _ end) (match ?x with _ => _ end) =>
          destruct x
      end ].

Lemma fuel_step (fuel : nat) :
  (forall d, refines (process_type py fuel d) (process_type py (S fuel) d)) /\
  (forall d, refines (process_array py fuel d) (process_array py (S fuel) d)) /\
  (forall d, refines (process_object py fuel d) (process_object py (S fuel) d)) /\
  (forall name d req,
      refines (process_property py fuel name d req)
              (process_property py (S fuel) name d req)).
Proof.
  induction fuel as [| fuel (IHt & IHa & IHo & IHp)].
  - repeat split; intros; apply refines_out.
  - repeat split; intros.
    + cbn [process_type]. step_refines; auto.
    + cbn [process_array]. step_refines; auto.
    + cbn [process_object]. step_refines; auto.
    + cbn [process_property]. step_refines; auto.
Qed.

Lemma fuel_more (fuel extra : nat) :
  (forall d, refines (process_type py fuel d) (process_type py (extra + fuel) d)) /\
  (forall d, refines (process_array py fuel d) (process_array py (extra + fuel) d)) /\
  (forall d, refines (process_object py fuel d) (process_object py (extra + fuel) d)) /\
  (forall name d req,
      refines (process_property py fuel name d req)
              (process_property py (extra + fuel) name d req)).
Proof.
  induction extra as [| extra (IHt & IHa & IHo & IHp)]; simpl.
  - repeat split; intros; apply refines_refl.
  - destruct (fuel_step (extra + fuel)) as (St & Sa & So & Sp).
    repeat split; intros.
    + destruct (IHt d) as [E | E]; [now left | rewrite E; apply St].
    + destruct (IHa d) as [E | E]; [now left | rewrite E; apply Sa].
    + destruct (IHo d) as [E | E]; [now left | rewrite E; apply So].
    + destruct (IHp name d req) as [E | E]; [now left | rewrite E; apply Sp].
Qed.

(** *** Enough fuel: twice the nesting depth *)

Lemma height_entry (k : string) (v : json) (es : list (string * json)) :
  In (k, v) es -> height v < height (JDict es).
Proof.
  simpl. induction es as [| [k' v'] rest IH]; simpl; [easy |].
  intros [E | Hin]; [inversion E; subst; lia | specialize (IH Hin); lia].
Qed.

Lemma dict_get_In (key : string) (es : list (string * json)) (v : json) :
  Py.dict_get key es = Some v -> exists k, In (k, v) es.
Proof.
  induction es as [| [k' v'] rest IH]; simpl; [discriminate |].
  destruct (k' =? key).
  - intros E; inversion E; subst. exists k'. now left.
  - intros E. destruct (IH E) as [k Hk]. exists k. now right.
Qed.

Lemma height_dict_get (key : string) (es : list (string * json)) (v : json) :
  Py.dict_get key es = Some v -> height v < height (JDict es).
Proof.
  intros E. destruct (dict_get_In _ _ _ E) as [k Hk]. eapply height_entry; eauto.
Qed.

Lemma getitem_Ret (d : json) (key : string) (x : json) :
  Py.getitem d key = Ret x ->
  exists es, d = JDict es /\ Py.dict_get key es = Some x.
Proof.
  destruct d; simpl; try discriminate.
  destruct (Py.dict_get key entries) eqn:E; try discriminate.
  intros H; inversion H; subst. eauto.
Qed.

Lemma get_Ret (d : json) (key : string) (default x : json) :
  Py.get d key default = Ret x ->
  exists es, d = JDict es /\
             (Py.dict_get key es = Some x \/
              Py.dict_get key es = None /\ x = default).
Proof.
  destruct d; simpl; try discriminate.
  destruct (Py.dict_get key entries) eqn:E; intros H; inversion H; subst; eauto.
Qed.

Lemma items_Ret (d : json) (entries : list (string * json)) :
  Py.items d = Ret entries -> d = JDict entries.
Proof. destruct d; simpl; try discriminate. now intros H; inversion H. Qed.

Lemma finished_contains key d : finished (Py.contains key d).
Proof. destruct d; discriminate. Qed.

Lemma finished_getitem d key : finished (Py.getitem d key).
Proof. destruct d; simpl; try discriminate. destruct (Py.dict_get _ _); discriminate. Qed.

Lemma finished_get d key default : finished (Py.get d key default).
Proof. destruct d; simpl; try discriminate. destruct (Py.dict_get _ _); discriminate. Qed.

Lemma finished_items d : finished (Py.items d).
Proof. destruct d; discriminate. Qed.

Lemma finished_iter d : finished (Py.iter d).
Proof. destruct d; discriminate. Qed.

Lemma finished_set d : finished (Py.set d).
Proof.
  unfold Py.set. apply finished_bind; [apply finished_iter | intros xs _].
  destruct (find _ xs); discriminate.
Qed.

Lemma finished_table_get {A : Type} (table : list (string * A)) key :
  finished (Py.table_get table key).
Proof. destruct key; discriminate. Qed.

Lemma finished_process_string d : finished (process_string py d).
Proof.
  unfold process_string.
  repeat first
    [ apply finished_contains | apply finished_getitem | apply finished_iter
    | apply finished_table_get
    | apply finished_bind; [| intros ? _]
    | match goal with
      | |- finished (if ?c then _ else _) => destruct c
      | |- finished (match ?x with _ => _ end) => destruct x
      | |- finished (Ret _) => discriminate
      end ].
Qed.

Lemma enough_fuel (fuel : nat) :
  (forall d, 2 * height d + 1 <= fuel -> finished (process_type py fuel d)) /\
  (forall d, 1 <= height d -> 2 * height d <= fuel ->
             finished (process_array py fuel d)) /\
  (forall d, 1 <= height d -> 2 * height d <= fuel ->
             finished (process_object py fuel d)) /\
  (forall name d req, 2 * height d + 2 <= fuel ->
                      finished (process_property py fuel name d req)).
Proof.
  induction fuel as [| fuel (IHt & IHa & IHo & IHp)].
  - repeat split; intros; lia.
  - repeat split.
    + intros d Hf. cbn [process_type].
      apply finished_bind; [apply finished_contains | intros has _].
      destruct (negb has); [discriminate |].
      apply finished_bind; [apply finished_getitem | intros ty Hty].
      apply getitem_Ret in Hty as (es & -> & Hty).
      apply finished_bind; [apply finished_table_get | intros h _].
      assert (1 <= height (JDict es)) by (simpl; lia).
      destruct h as [[] |]; try discriminate.
      * apply finished_process_string.
      * apply IHa; lia.
      * apply IHo; lia.
    + intros d H1 Hf. cbn [process_array].
      apply finished_bind; [apply finished_contains | intros has _].
      destruct (negb has); [discriminate |].
      apply finished_bind; [apply finished_getitem | intros items Hit].
      apply getitem_Ret in Hit as (es & -> & Hit).
      apply height_dict_get in Hit.
      apply finished_bind; [apply IHt; lia | intros it _].
      apply finished_bind; [apply finished_get | intros mn _].
      apply finished_bind; [apply finished_get | intros mx _].
      destruct (_ && _); [discriminate |]. destruct (_ && _); discriminate.
    + intros d H1 Hf. cbn [process_object].
      apply finished_bind; [apply finished_get | intros props Hp].
      apply get_Ret in Hp as (es & -> & Hp).
      apply finished_bind; [apply finished_get | intros rq _].
      apply finished_bind; [apply finished_set | intros required _].
      destruct (negb (Py.truthy props)) eqn:Et; [discriminate |].
      apply finished_bind; [apply finished_items | intros entries He].
      apply items_Ret in He as ->.
      destruct Hp as [Hp | [_ Hp]]; [| now inversion Hp; subst].
      apply height_dict_get in Hp.
      apply finished_bind.
      { apply finished_for_each. intros name prop Hin.
        apply height_entry in Hin.
        apply finished_except_ValueError; [apply IHp; lia | discriminate]. }
      intros rules _.
      apply finished_bind; [apply finished_get | intros addl Ha].
      apply get_Ret in Ha as (es' & E & Ha). inversion E; subst es'.
      apply finished_bind; [| discriminate].
      destruct (Py.truthy addl); [| discriminate].
      destruct Ha as [Ha | [_ ->]].
      * apply height_dict_get in Ha.
        assert (finished (process_type py fuel addl)) by (apply IHt; lia).
        destruct addl; try (apply finished_bind; [assumption | discriminate]).
        destruct b; discriminate.
      * apply finished_bind; [apply IHt; simpl in *; lia | discriminate].
    + intros name d req Hf. cbn [process_property].
      destruct (negb (Py.is_dict d)); [discriminate |].
      apply finished_bind; [apply finished_contains | intros has _].
      destruct has.
      * apply finished_bind; [apply finished_getitem | discriminate].
      * apply finished_bind; [apply IHt; lia | intros frag _].
        destruct (negb req); discriminate.
Qed.

End Fuel.

(** ** Python operations: small facts *)

Lemma eq_str_true (v : json) (s : string) :
  Py.eq_str v s = true <-> v = JStr s.
Proof.
  destruct v; simpl; try (split; [discriminate | intros H; discriminate H]).
  rewrite String.eqb_eq. split; [now intros -> | now intros H; inversion H].
Qed.

Lemma set_names (names : list string) :
  Py.set (JList (map JStr names)) = Ret (map JStr names).
Proof.
  unfold Py.set; simpl.
  replace (find (fun x => negb (Py.hashable x)) (map JStr names)) with (@None json);
    [reflexivity |].
  induction names as [| n rest IH]; simpl; [reflexivity | exact IH].
Qed.

Lemma required_set_eq (es : list (string * json)) :
  required_usable es ->
  (required_names <- Py.get (JDict es) "required" (JList []) ;; Py.set required_names)
  = Ret (required_set es).
Proof.
  unfold required_usable, required_set. intros H. simpl.
  destruct (Py.dict_get "required" es) as [r |]; simpl; [| reflexivity].
  destruct (H r eq_refl) as [names ->]. reflexivity.
Qed.

(** ** The entry point *)

(** C5.  A root that is not a map, or a root map whose [type] is not the str
    "object" (absent included), makes [json_schema_to_gbnf] raise the
    invalid-schema [ValueError] of the entry point, the first with "Schema
    must be a dictionary" and the second with "Root schema must be an object
    type"; no grammar is returned, whatever the fuel. *)
Theorem root_not_object_is_invalid (py : interpreter) (fuel : nat) (schema : json) :
  Py.is_dict schema = false \/
  (exists es, schema = JDict es /\ Py.dict_get "type" es <> Some (JStr "object")) ->
  exists e, json_schema_to_gbnf py fuel schema = Raise e /\ InvalidSchema e /\
            (Py.is_dict schema = false ->
             e = ValueError "Schema must be a dictionary") /\
            (Py.is_dict schema = true ->
             e = ValueError "Root schema must be an object type").
Proof.
  unfold json_schema_to_gbnf. intros [Hnd | (es & -> & Hty)].
  - rewrite Hnd; simpl. eexists; split; [reflexivity |].
    split; [now left |]. split; [reflexivity | discriminate].
  - cbn [Py.is_dict negb Py.get].
    assert (E : forall v, v <> JStr "object" -> Py.eq_str v "object" = false).
    { intros v Hv. destruct (Py.eq_str v "object") eqn:Eo; [| reflexivity].
      apply eq_str_true in Eo. contradiction. }
    exists (ValueError "Root schema must be an object type").
    split; [| split; [now right | split; [discriminate | reflexivity]]].
    destruct (Py.dict_get "type" es) as [v |] eqn:Ev; cbn [bind].
    + rewrite E; [reflexivity | congruence].
    + reflexivity.
Qed.

Lemma root_not_object_is_invalid_witness :
  exists e,
    json_schema_to_gbnf plain_interpreter 5 array_root = Raise e /\
    InvalidSchema e.
Proof.
  destruct (root_not_object_is_invalid plain_interpreter 5 array_root)
    as (e & H1 & H2 & _).
  - right. exists [("type", JStr "array"); ("items", string_node)].
    split; [reflexivity | simpl; discriminate].
  - exists e. split; assumption.
Defined.

(** ** Objects *)

(** C4.  An object node whose [properties] is absent or the empty map compiles
    to exactly the text [{}], whatever [additionalProperties] holds (and
    whatever else the node holds), provided [required], when declared, is a
    sequence the compiler can make a set of; so does the whole schema when
    the node is the root. *)
Theorem empty_properties_give_braces (py : interpreter) (fuel : nat)
    (es : list (string * json)) :
  Py.dict_get "properties" es = None \/
  Py.dict_get "properties" es = Some (JDict []) ->
  required_usable es ->
  process_object py (S fuel) (JDict es) = Ret "{}" /\
  (Py.dict_get "type" es = Some (JStr "object") ->
   json_schema_to_gbnf py (S fuel) (JDict es) = Ret "{}").
Proof.
  intros Hp Hr.
  assert (Ho : process_object py (S fuel) (JDict es) = Ret "{}").
  { cbn [process_object].
    assert (Hg : Py.get (JDict es) "properties" (JDict []) = Ret (JDict [])).
    { simpl. destruct Hp as [-> | ->]; reflexivity. }
    rewrite Hg. cbn [bind].
    pose proof (required_set_eq es Hr) as Hs.
    destruct (Py.get (JDict es) "required" (JList [])) as [r | e |];
      simpl in Hs; try discriminate.
    cbn [bind]. rewrite Hs. reflexivity. }
  split; [exact Ho |].
  intros Ht. unfold json_schema_to_gbnf. cbn [Py.is_dict negb Py.get].
  rewrite Ht. cbn [bind Py.eq_str]. rewrite String.eqb_refl. cbn [negb].
  rewrite Ho. reflexivity.
Qed.

Lemma empty_properties_give_braces_witness :
  process_object plain_interpreter 1 bare_object = Ret "{}" /\
  json_schema_to_gbnf plain_interpreter 1 bare_object = Ret "{}".
Proof.
  destruct (empty_properties_give_braces plain_interpreter 0
              [("type", JStr "object"); ("additionalProperties", JBool true);
               ("required", JList [JStr "id"])]) as [H1 H2].
  - left. reflexivity.
  - intros r Hr. inversion Hr; subst. exists [JStr "id"]. reflexivity.
  - split; [exact H1 | apply H2; reflexivity].
Defined.

(** ** Strings *)

Lemma contains_dict (key : string) (es : list (string * json)) :
  Py.contains key (JDict es) =
  Ret (match Py.dict_get key es with Some _ => true | None => false end).
Proof. reflexivity. Qed.

Lemma getitem_dict (key : string) (es : list (string * json)) (v : json) :
  Py.dict_get key es = Some v -> Py.getitem (JDict es) key = Ret v.
Proof. intros H. simpl. now rewrite H. Qed.

Lemma formats_lookup (f : json) :
  Py.hashable f = true ->
  (found <- Py.table_get formats f ;;
   match found with Some token => Ret token | None => Ret "<string>" end)
  = Ret (format_token f).
Proof.
  destruct f; try discriminate; intros _; try reflexivity.
  unfold format_token, Py.table_get, formats. cbn [find fst].
  rewrite (String.eqb_sym "date-time" s), (String.eqb_sym "date" s),
    (String.eqb_sym "email" s), (String.eqb_sym "uri" s).
  destruct (s =? "date-time"); [reflexivity |].
  destruct (s =? "date"); [reflexivity |].
  destruct (s =? "email"); [reflexivity |].
  destruct (s =? "uri"); reflexivity.
Qed.

(** C3.  A string node consults one constraint only, in the order enum,
    pattern, format, nothing.  With [enum] a sequence, the fragment is the
    values, each between double quotes, in their order, separated by [" | "]
    and put in brackets, whatever [pattern] and [format] hold.  Without
    [enum] and with [pattern], it is [<pattern P>] with the pattern's text
    unchanged, whatever [format] holds.  With [format] alone, it is the
    table's token: <datetime>, <date>, <email>, <uri> for date-time, date,
    email, uri and <string> for any other (scalar) value.  With none of the
    three it is <string>. *)
Theorem process_string_priority (py : interpreter) (es : list (string * json)) :
  (forall vs, Py.dict_get "enum" es = Some (JList vs) ->
     process_string py (JDict es)
     = Ret ("[" ++ join " | " (map (quoted py) vs) ++ "]")) /\
  (forall p, Py.dict_get "enum" es = None ->
     Py.dict_get "pattern" es = Some p ->
     process_string py (JDict es) = Ret ("<pattern " ++ Py.str py p ++ ">")) /\
  (forall f, Py.dict_get "enum" es = None ->
     Py.dict_get "pattern" es = None ->
     Py.dict_get "format" es = Some f -> Py.hashable f = true ->
     process_string py (JDict es) = Ret (format_token f)) /\
  (Py.dict_get "enum" es = None ->
   Py.dict_get "pattern" es = None ->
   Py.dict_get "format" es = None ->
   process_string py (JDict es) = Ret "<string>").
Proof.
  unfold process_string. rewrite !contains_dict.
  repeat split.
  - intros vs He. rewrite He. cbn [bind].
    rewrite (getitem_dict _ _ _ He). reflexivity.
  - intros p He Hp. rewrite He, Hp. cbn [bind].
    rewrite (getitem_dict _ _ _ Hp). reflexivity.
  - intros f He Hp Hf Hh. rewrite He, Hp, Hf. cbn [bind].
    rewrite (getitem_dict _ _ _ Hf). cbn [bind].
    now apply formats_lookup.
  - intros He Hp Hf. rewrite He, Hp, Hf. reflexivity.
Qed.

Lemma process_string_priority_witness :
  process_string plain_interpreter (JDict crowded_string)
  = Ret ("[" ++ dq ++ "a" ++ dq ++ " | " ++ dq ++ "b" ++ dq ++ "]") /\
  process_string plain_interpreter (JDict pattern_and_format)
  = Ret "<pattern ^a+$>" /\
  process_string plain_interpreter (JDict (format_only "date-time"))
  = Ret "<datetime>" /\
  process_string plain_interpreter (JDict (format_only "date"))
  = Ret "<date>" /\
  process_string plain_interpreter (JDict (format_only "email"))
  = Ret "<email>" /\
  process_string plain_interpreter (JDict (format_only "uri"))
  = Ret "<uri>" /\
  process_string plain_interpreter (JDict (format_only "hostname"))
  = Ret "<string>" /\
  process_string plain_interpreter (JDict [("type", JStr "string")])
  = Ret "<string>".
Proof.
  pose proof (process_string_priority plain_interpreter) as P.
  refine (conj _ (conj _ (conj _ (conj _ (conj _ (conj _ (conj _ _))))))).
  - exact (proj1 (P crowded_string) [JStr "a"; JStr "b"] eq_refl).
  - exact (proj1 (proj2 (P pattern_and_format)) (JStr "^a+$") eq_refl eq_refl).
  - exact (proj1 (proj2 (proj2 (P (format_only "date-time"))))
             (JStr "date-time") eq_refl eq_refl eq_refl eq_refl).
  - exact (proj1 (proj2 (proj2 (P (format_only "date"))))
             (JStr "date") eq_refl eq_refl eq_refl eq_refl).
  - exact (proj1 (proj2 (proj2 (P (format_only "email"))))
             (JStr "email") eq_refl eq_refl eq_refl eq_refl).
  - exact (proj1 (proj2 (proj2 (P (format_only "uri"))))
             (JStr "uri") eq_refl eq_refl eq_refl eq_refl).
  - exact (proj1 (proj2 (proj2 (P (format_only "hostname"))))
             (JStr "hostname") eq_refl eq_refl eq_refl eq_refl).
  - exact (proj2 (proj2 (proj2 (P [("type", JStr "string")])))
             eq_refl eq_refl eq_refl).
Defined.

(** ** Arrays *)

(** An array without [items] raises the missing-items error. *)
Lemma process_array_missing_items (py : interpreter) (fuel : nat)
    (es : list (string * json)) :
  Py.dict_get "items" es = None ->
  process_array py (S fuel) (JDict es) = Raise MissingItems.
Proof. intros H. cbn [process_array]. now rewrite contains_dict, H. Qed.

(** What [process_array] emits around the compiled items: the quantifier
    depends on [minItems] compared with 0 and 1 and on the truth value of
    [maxItems]. *)
Lemma process_array_quantifier (py : interpreter) (fuel : nat)
    (es : list (string * json)) (items : json) (items_type : string) :
  Py.dict_get "items" es = Some items ->
  process_type py fuel items = Ret items_type ->
  process_array py (S fuel) (JDict es)
  = Ret (if min_items_is 0 es && max_items_falsy es
         then "[" ++ items_type ++ "*]"
         else if min_items_is 1 es && max_items_falsy es
              then "[" ++ items_type ++ "+]"
              else "[" ++ items_type ++ "]").
Proof.
  intros Hi Ht. cbn [process_array]. rewrite contains_dict, Hi. cbn [bind negb].
  rewrite (getitem_dict _ _ _ Hi). cbn [bind]. rewrite Ht. cbn [bind Py.get].
  unfold min_items_is, max_items_falsy.
  destruct (Py.dict_get "minItems" es) as [mn |];
    destruct (Py.dict_get "maxItems" es) as [mx |]; cbn [bind];
    try destruct (Py.eq_int mn 0); try destruct (Py.eq_int mn 1);
    try destruct (Py.truthy mx); reflexivity.
Qed.

Lemma eq_int_0_not_1 (v : json) :
  Py.eq_int v 0 = true -> Py.eq_int v 1 = true -> False.
Proof.
  destruct v as [| b | n | x | | |]; simpl; try discriminate.
  - destruct b; discriminate.
  - rewrite !Z.eqb_eq. lia.
  - destruct x as [s | s | | s m e]; simpl; try discriminate.
    destruct s; discriminate.
Qed.

(** X6.  When the items compile and [maxItems] is undeclared, the quantifier
    follows [minItems]: [*] for 0 or unset, [+] for 1, none otherwise; a
    declared [maxItems] that is a positive integer gives the unquantified
    form. *)
Lemma process_array_bounds (py : interpreter) (fuel : nat)
    (es : list (string * json)) (items : json) (items_type : string) :
  Py.dict_get "items" es = Some items ->
  process_type py fuel items = Ret items_type ->
  (Py.dict_get "maxItems" es = None ->
   (min_items_is 0 es = true ->
    process_array py (S fuel) (JDict es) = Ret ("[" ++ items_type ++ "*]")) /\
   (min_items_is 1 es = true ->
    process_array py (S fuel) (JDict es) = Ret ("[" ++ items_type ++ "+]")) /\
   (min_items_is 0 es = false -> min_items_is 1 es = false ->
    process_array py (S fuel) (JDict es) = Ret ("[" ++ items_type ++ "]"))) /\
  (forall n, (0 < n)%Z -> Py.dict_get "maxItems" es = Some (JInt n) ->
   process_array py (S fuel) (JDict es) = Ret ("[" ++ items_type ++ "]")).
Proof.
  intros Hi Ht. rewrite (process_array_quantifier py fuel es items items_type Hi Ht).
  split.
  - intros Hm. unfold max_items_falsy. rewrite Hm, !andb_true_r.
    refine (conj _ (conj _ _)).
    + now intros ->.
    + intros H1. destruct (min_items_is 0 es) eqn:H0; [| now rewrite H1].
      exfalso. unfold min_items_is in *.
      destruct (Py.dict_get "minItems" es) as [v |]; [| discriminate].
      exact (eq_int_0_not_1 v H0 H1).
    + now intros -> ->.
  - intros n Hn Hm. unfold max_items_falsy. rewrite Hm. simpl.
    destruct (Z.eqb_spec n 0); [lia |]. simpl. now rewrite !andb_false_r.
Qed.

(** C1 (the code departs from it).  An array that declares [maxItems: 0] is
    compiled as if [maxItems] were not declared: [not max_items] holds for 0,
    and the fragment is the zero-or-more form, not the unquantified one;
    [maxItems: 3] on the same node gives the unquantified form. *)
Theorem max_items_zero_counts_as_unset (py : interpreter) (fuel : nat) :
  process_array py (S (S fuel)) array_max_zero = Ret "[<string>*]" /\
  process_array py (S (S fuel)) array_max_three = Ret "[<string>]".
Proof. split; reflexivity. Qed.

(** ** Properties *)

Lemma length_append (s t : string) :
  String.length (s ++ t) = String.length s + String.length t.
Proof. induction s as [| c s IH]; simpl; [reflexivity | now rewrite IH]. Qed.

(** A property that is not given by reference becomes the member
    ["name" : fragment], followed by the optional marker when the name is not
    required. *)
Lemma process_property_member (py : interpreter) (fuel : nat) (name : string)
    (es : list (string * json)) (is_required : bool) (fragment : string) :
  Py.dict_get "$ref" es = None ->
  process_type py fuel (JDict es) = Ret fragment ->
  process_property py (S fuel) name (JDict es) is_required
  = Ret (if is_required then dq ++ name ++ dq ++ " : " ++ fragment
         else (dq ++ name ++ dq ++ " : " ++ fragment) ++ optional_marker).
Proof.
  intros Hr Ht. cbn [process_property Py.is_dict negb].
  rewrite contains_dict, Hr. cbn [bind]. rewrite Ht. cbn [bind].
  destruct is_required; reflexivity.
Qed.

(** C2 (the code departs from it).  A property given by [$ref] and absent
    from [required] compiles to the bare placeholder [<ref>]: the early return
    of [process_property] skips both the ["name" :] prefix and the optional
    marker that the other path appends, and the object's text is [{ <ref> }]. *)
Theorem ref_property_loses_name_and_marker (py : interpreter) (fuel : nat) :
  process_property py (S fuel) "user" user_ref false = Ret "<ref>" /\
  ~ ends_with "<ref>" optional_marker /\
  ~ starts_with "<ref>" (dq ++ "user" ++ dq ++ " : ") /\
  json_schema_to_gbnf py (S (S fuel)) object_with_ref = Ret "{ <ref> }".
Proof.
  refine (conj eq_refl (conj _ (conj _ eq_refl))).
  - intros [front H]. pose proof (f_equal String.length H) as L.
    rewrite length_append in L. simpl in L.
    destruct front; [discriminate H | simpl in L; lia].
  - intros [back H]. discriminate H.
Qed.

(** ** Type dispatch *)

Lemma table_get_handlers (ty : json) :
  Py.hashable ty = true ->
  (forall s, In s supported_types -> ty <> JStr s) ->
  Py.table_get type_handlers ty = Ret None.
Proof.
  intros Hh Hn. destruct ty; try discriminate; try reflexivity.
  unfold Py.table_get, type_handlers. cbn [find fst].
  assert (E : forall t, In t supported_types -> (t =? s) = false).
  { intros t Ht. apply String.eqb_neq. intros ->. now apply (Hn s). }
  rewrite !E; [reflexivity | ..]; simpl; tauto.
Qed.

(** What holds of the dispatch: a map without [type] raises the missing-type
    error; a map whose [type] is a scalar outside the supported names raises
    the unsupported-type error with that value's text; and a fragment is only
    ever returned for a map whose [type] is one of the supported names. *)
Lemma process_type_rejects (py : interpreter) (fuel : nat)
    (es : list (string * json)) :
  (Py.dict_get "type" es = None ->
   process_type py (S fuel) (JDict es) = Raise MissingType) /\
  (forall ty, Py.dict_get "type" es = Some ty -> Py.hashable ty = true ->
     (forall s, In s supported_types -> ty <> JStr s) ->
     process_type py (S fuel) (JDict es)
     = Raise (UnsupportedType (Py.str py ty))).
Proof.
  split.
  - intros Hn. cbn [process_type]. rewrite contains_dict, Hn. reflexivity.
  - intros ty Ht Hh Hs. cbn [process_type]. rewrite contains_dict, Ht.
    cbn [bind negb]. rewrite (getitem_dict _ _ _ Ht). cbn [bind].
    rewrite (table_get_handlers ty Hh Hs). reflexivity.
Qed.

Lemma table_get_Some (ty : json) (h : handler) :
  Py.table_get type_handlers ty = Ret (Some h) ->
  exists s, ty = JStr s /\ In s supported_types.
Proof.
  destruct ty; try discriminate. intros H. exists s. split; [reflexivity |].
  unfold Py.table_get, type_handlers in H. cbn [find fst] in H.
  unfold supported_types.
  repeat match type of H with
         | context [if (?t =? s) then _ else _] =>
             destruct (String.eqb_spec t s) as [<- |];
             [simpl; tauto |]
         end.
  discriminate H.
Qed.

(** X3.  [process_type] returns a fragment only for a map whose [type] is
    one of the seven supported names: any other node, whatever it is, gives
    no fragment. *)
Lemma process_type_fails_closed (py : interpreter) (fuel : nat) (d : json)
    (fragment : string) :
  process_type py fuel d = Ret fragment ->
  exists es s, d = JDict es /\ Py.dict_get "type" es = Some (JStr s) /\
               In s supported_types.
Proof.
  destruct fuel as [| fuel]; [discriminate |]. cbn [process_type].
  destruct (Py.contains "type" d) as [has | |] eqn:Ec; try discriminate.
  cbn [bind]. destruct has; cbn [negb]; [| discriminate].
  destruct (Py.getitem d "type") as [ty | |] eqn:Eg; try discriminate.
  apply getitem_Ret in Eg as (es & -> & Eg). cbn [bind].
  destruct (Py.table_get type_handlers ty) as [[h |] | |] eqn:Et;
    try discriminate.
  apply table_get_Some in Et as (s & -> & Hs). intros _. eauto.
Qed.

(** C6 (the code departs from it).  A [type] that is a list, which is
    outside the supported names, does not reach the unsupported-type error:
    the lookup in [type_handlers] raises [TypeError] first.  As that is not a
    [ValueError], the wrapper of [process_object] does not add the property's
    name, which it does for a str such as "text", and the entry point reports
    the interpreter's text.  Likewise a node that is the schema [true] has no
    [type] and raises [TypeError], not the missing-type error. *)
Theorem list_type_raises_TypeError (py : interpreter) (fuel : nat) :
  process_type py (S fuel) nullable_string
  = Raise (TypeError (Unhashable (JList [JStr "string"; JStr "null"]))) /\
  process_object py (S (S (S fuel))) object_with_union
  = Raise (TypeError (Unhashable (JList [JStr "string"; JStr "null"]))) /\
  json_schema_to_gbnf py (S (S (S fuel))) object_with_union
  = Raise (ValueError
             ("Error processing schema: "
              ++ fault_text py
                   (TypeError (Unhashable (JList [JStr "string"; JStr "null"]))))) /\
  process_object py (S (S (S fuel))) object_with_text
  = Raise (PropertyError "nick" "Unsupported type: text") /\
  process_array py (S (S fuel)) array_of_anything
  = Raise (TypeError (NotContainer (JBool true))).
Proof. refine (conj eq_refl (conj eq_refl (conj eq_refl (conj eq_refl eq_refl)))). Qed.

(** ** The members of an object *)

Lemma for_each_raises (b : string -> json -> outcome string)
    (before after : list (string * json)) (name : string) (prop : json)
    (rules : list string) (e : exn) :
  for_each_property b before = Ret rules ->
  b name prop = Raise e ->
  for_each_property b (before ++ (name, prop) :: after)%list = Raise e.
Proof.
  revert rules. induction before as [| [n p] rest IH]; simpl; intros rules Hb He.
  - now rewrite He.
  - destruct (b n p) as [rule | |]; try discriminate. cbn [bind] in *.
    destruct (for_each_property b rest) as [rs | |]; try discriminate.
    now rewrite (IH rs eq_refl He).
Qed.

Lemma for_each_returns (b : string -> json -> outcome string)
    (before after : list (string * json)) (name : string) (prop : json)
    (rules : list string) :
  for_each_property b (before ++ (name, prop) :: after)%list = Ret rules ->
  exists rule, b name prop = Ret rule.
Proof.
  revert rules. induction before as [| [n p] rest IH]; simpl; intros rules H.
  - destruct (b name prop) as [rule | |]; try discriminate. eauto.
  - destruct (b n p) as [rule | |]; try discriminate. cbn [bind] in H.
    destruct (for_each_property b (rest ++ (name, prop) :: after)%list)
      as [rs | |] eqn:E; try discriminate.
    eapply IH; reflexivity.
Qed.

(** [process_object] up to the end of its loop: with properties declared
    and [required] usable, what remains is the loop and the treatment of
    [additionalProperties]. *)
Lemma process_object_loop (py : interpreter) (fuel : nat)
    (es entries : list (string * json)) :
  Py.dict_get "properties" es = Some (JDict entries) -> entries <> [] ->
  required_usable es ->
  process_object py (S fuel) (JDict es)
  = (rules <- property_rules py fuel es entries ;;
     additional_props <- Py.get (JDict es) "additionalProperties" (JDict []) ;;
     rules <-
       (if Py.truthy additional_props then
          match additional_props with
          | JBool b =>
              if b then Ret (rules_append rules wildcard_any) else Ret rules
          | _ =>
              any_type <- process_type py fuel additional_props ;;
              Ret (rules_append rules (dq ++ "*" ++ dq ++ " : " ++ any_type))
          end
        else Ret rules) ;;
     Ret ("{ " ++ join ", " rules ++ " }")).
Proof.
  intros Hp Hne Hr. cbn [process_object].
  assert (Hg : Py.get (JDict es) "properties" (JDict []) = Ret (JDict entries))
    by (simpl; now rewrite Hp).
  rewrite Hg. cbn [bind].
  pose proof (required_set_eq es Hr) as Hs.
  destruct (Py.get (JDict es) "required" (JList [])) as [r | e |];
    simpl in Hs; try discriminate.
  cbn [bind]. rewrite Hs. cbn [bind].
  destruct entries as [| entry rest]; [now elim Hne |]. reflexivity.
Qed.

(** C9.  On an object with at least one declared property, all of which
    compile, an [additionalProperties] that is the empty map adds no member:
    the text is the braces around exactly the properties' members, one per
    property.  The same holds of every falsy value; the wildcard member is
    added for [true] and for a truthy schema that compiles. *)
Theorem empty_additional_properties_add_nothing (py : interpreter) (fuel : nat)
    (es entries : list (string * json)) (members : list string) :
  Py.dict_get "properties" es = Some (JDict entries) -> entries <> [] ->
  required_usable es ->
  property_rules py fuel es entries = Ret members ->
  length members = length entries /\
  (Py.dict_get "additionalProperties" es = Some (JDict []) ->
   process_object py (S fuel) (JDict es) = Ret (braces members)) /\
  (forall a, Py.dict_get "additionalProperties" es = Some a ->
     Py.truthy a = false ->
     process_object py (S fuel) (JDict es) = Ret (braces members)) /\
  (Py.dict_get "additionalProperties" es = Some (JBool true) ->
   process_object py (S fuel) (JDict es)
   = Ret (braces (rules_append members wildcard_any))) /\
  (forall a fragment, Py.dict_get "additionalProperties" es = Some a ->
     Py.truthy a = true -> Py.is_bool a = false ->
     process_type py fuel a = Ret fragment ->
     process_object py (S fuel) (JDict es)
     = Ret (braces (rules_append members (wildcard_of fragment)))).
Proof.
  intros Hp Hne Hr Hm.
  rewrite (process_object_loop py fuel es entries Hp Hne Hr), Hm. cbn [bind Py.get].
  split; [exact (for_each_length _ _ _ Hm) |].
  refine (conj _ (conj _ (conj _ _))).
  - intros ->. reflexivity.
  - intros a -> Ha. cbn [bind]. rewrite Ha. reflexivity.
  - intros ->. reflexivity.
  - intros a fragment -> Ht Hb Hf. cbn [bind]. rewrite Ht.
    destruct a; try discriminate; rewrite Hf; reflexivity.
Qed.

Lemma empty_additional_properties_add_nothing_witness :
  process_object plain_interpreter 3 (JDict (record_with (JDict [])))
  = Ret (braces [dq ++ "id" ++ dq ++ " : <integer>";
                 dq ++ "name" ++ dq ++ " : <string> | ε"]) /\
  process_object plain_interpreter 3 (JDict (record_with (JBool true)))
  = Ret (braces [dq ++ "id" ++ dq ++ " : <integer>";
                 dq ++ "name" ++ dq ++ " : <string> | ε";
                 dq ++ "*" ++ dq ++ " : <any>"]).
Proof.
  split.
  - refine (proj1 (proj2
      (empty_additional_properties_add_nothing plain_interpreter 2
         (record_with (JDict [])) two_properties _ eq_refl _ _ eq_refl)) eq_refl).
    + discriminate.
    + intros r Hr. inversion Hr; subst. exists [JStr "id"]. reflexivity.
  - refine (proj1 (proj2 (proj2 (proj2
      (empty_additional_properties_add_nothing plain_interpreter 2
         (record_with (JBool true)) two_properties _ eq_refl _ _ eq_refl))))
      eq_refl).
    + discriminate.
    + intros r Hr. inversion Hr; subst. exists [JStr "id"]. reflexivity.
Defined.

(** ** References outside a property definition *)

(** C8.  The reference placeholder is produced by [process_property] only.
    An array whose [items] is a map with [$ref] and no [type] raises the
    missing-type error, and so does an object whose properties compile and
    whose [additionalProperties] is a map holding [$ref] alone; the same
    items definition, as a property definition, gives [<ref>]. *)
Theorem ref_is_seen_only_in_properties (py : interpreter) (fuel : nat) :
  (forall es items target,
     Py.dict_get "items" es = Some (JDict items) ->
     Py.dict_get "$ref" items = Some target ->
     Py.dict_get "type" items = None ->
     process_array py (S (S fuel)) (JDict es) = Raise MissingType /\
     forall name is_required,
       process_property py (S fuel) name (JDict items) is_required = Ret "<ref>") /\
  (forall es entries members target,
     Py.dict_get "properties" es = Some (JDict entries) -> entries <> [] ->
     required_usable es ->
     property_rules py (S fuel) es entries = Ret members ->
     Py.dict_get "additionalProperties" es = Some (JDict [("$ref", target)]) ->
     process_object py (S (S fuel)) (JDict es) = Raise MissingType).
Proof.
  split.
  - intros es items target Hi Hr Ht. split.
    + cbn [process_array]. rewrite contains_dict, Hi. cbn [bind negb].
      rewrite (getitem_dict _ _ _ Hi). cbn [bind].
      rewrite (proj1 (process_type_rejects py fuel items) Ht). reflexivity.
    + intros name is_required. cbn [process_property Py.is_dict negb].
      rewrite contains_dict, Hr. cbn [bind].
      rewrite (getitem_dict _ _ _ Hr). reflexivity.
  - intros es entries members target Hp Hne Hr Hm Ha.
    rewrite (process_object_loop py (S fuel) es entries Hp Hne Hr), Hm.
    cbn [bind Py.get]. rewrite Ha. reflexivity.
Qed.

Lemma ref_is_seen_only_in_properties_witness :
  process_array plain_interpreter 3 (JDict array_of_refs) = Raise MissingType /\
  process_property plain_interpreter 2 "user" user_ref true = Ret "<ref>" /\
  process_object plain_interpreter 3 (JDict (record_with user_ref))
  = Raise MissingType.
Proof.
  pose proof (ref_is_seen_only_in_properties plain_interpreter 1) as [Ha Ho].
  destruct (Ha array_of_refs [("$ref", JStr "#/definitions/user")]
              (JStr "#/definitions/user") eq_refl eq_refl eq_refl) as [H1 H2].
  refine (conj H1 (conj (H2 "user" true) _)).
  refine (Ho (record_with user_ref) two_properties _ (JStr "#/definitions/user")
             eq_refl _ _ eq_refl eq_refl).
  - discriminate.
  - intros r Hr. inversion Hr; subst. exists [JStr "id"]. reflexivity.
Defined.

(** ** Property definitions that are not maps *)

Lemma process_property_not_map (py : interpreter) (fuel : nat) (name : string)
    (definition : json) (is_required : bool) :
  Py.is_dict definition = false ->
  process_property py (S fuel) name definition is_required
  = Raise (ValueError (InvalidProperty name)).
Proof. intros H. cbn [process_property]. now rewrite H. Qed.

Lemma process_property_not_map_no_result (py : interpreter) (fuel : nat)
    (name : string) (definition : json) (is_required : bool) (rule : string) :
  Py.is_dict definition = false ->
  process_property py fuel name definition is_required <> Ret rule.
Proof.
  intros H. destruct fuel; [discriminate |].
  now rewrite process_property_not_map.
Qed.

(** C10.  When a declared property's definition is not a map, the object is
    never compiled to a fragment, whatever the fuel, and with fuel for twice
    its depth [process_object] raises.  When the properties declared before
    it compile, the error is
    the invalid-definition [ValueError] wrapped with the property's name; the
    entry point wraps it once more and returns no text. *)
Theorem non_map_property_is_reported (py : interpreter) (fuel : nat)
    (es before after : list (string * json)) (name : string) (definition : json) :
  Py.dict_get "properties" es
  = Some (JDict (before ++ (name, definition) :: after)%list) ->
  Py.is_dict definition = false ->
  (forall n fragment, process_object py n (JDict es) <> Ret fragment) /\
  (forall n, 2 * height (JDict es) <= n ->
     exists e, process_object py n (JDict es) = Raise e) /\
  (forall members,
     required_usable es ->
     property_rules py (S fuel) es before = Ret members ->
     process_object py (S (S fuel)) (JDict es)
     = Raise (PropertyError name (InvalidProperty name)) /\
     (Py.dict_get "type" es = Some (JStr "object") ->
      json_schema_to_gbnf py (S (S fuel)) (JDict es)
      = Raise (ValueError ("Error processing schema: Error processing property '"
                           ++ name ++ "': Invalid property definition for "
                           ++ name)))).
Proof.
  intros Hp Hd.
  assert (Hno : forall n fragment, process_object py n (JDict es) <> Ret fragment);
    [| split; [exact Hno | split]].
  - intros n fragment H. destruct n as [| n]; [discriminate |].
    cbn [process_object] in H. cbn [Py.get] in H. rewrite Hp in H.
    cbn [bind] in H.
    destruct (match Py.dict_get "required" es with
              | Some x => Ret x
              | None => Ret (JList [])
              end) as [rq | |]; try discriminate.
    cbn [bind] in H. destruct (Py.set rq) as [required | |]; try discriminate.
    cbn [bind] in H.
    assert (Ht : Py.truthy (JDict (before ++ (name, definition) :: after)%list)
                 = true) by (destruct before; reflexivity).
    rewrite Ht in H. cbn [negb Py.items bind] in H.
    destruct (for_each_property (try_property (process_property py n) required)
                (before ++ (name, definition) :: after)%list)
      as [rules | |] eqn:E; try discriminate.
    apply for_each_returns in E as [rule E]. unfold try_property in E.
    destruct (process_property py n name definition (Py.set_mem name required))
      as [r | [] |] eqn:Ep; try discriminate.
    now apply process_property_not_map_no_result in Ep.
  - intros n Hn.
    assert (Hf : finished (process_object py n (JDict es))).
    { apply (proj1 (proj2 (proj2 (enough_fuel py n)))); [simpl; lia | exact Hn]. }
    destruct (process_object py n (JDict es)) as [fragment | e |] eqn:E.
    + now elim (Hno n fragment).
    + now exists e.
    + now elim Hf.
  - intros members Hr Hm.
    assert (Ho : process_object py (S (S fuel)) (JDict es)
                 = Raise (PropertyError name (InvalidProperty name))).
    { rewrite (process_object_loop py (S fuel) es _ Hp);
        [| now destruct before | exact Hr].
      unfold property_rules in *.
      erewrite for_each_raises; [reflexivity | exact Hm |].
      unfold try_property. now rewrite process_property_not_map. }
    split; [exact Ho |].
    intros Ht. unfold json_schema_to_gbnf. cbn [Py.is_dict negb Py.get].
    rewrite Ht. cbn [bind Py.eq_str]. rewrite String.eqb_refl. cbn [negb].
    rewrite Ho. reflexivity.
Qed.

Lemma non_map_property_is_reported_witness :
  process_object plain_interpreter 3 (JDict object_with_number)
  = Raise (PropertyError "tags" (InvalidProperty "tags")) /\
  json_schema_to_gbnf plain_interpreter 3 (JDict object_with_number)
  = Raise (ValueError
             "Error processing schema: Error processing property 'tags': Invalid property definition for tags").
Proof.
  destruct (non_map_property_is_reported plain_interpreter 1 object_with_number
              [("id", JDict [("type", JStr "integer")])] [] "tags" (JInt 7)
              eq_refl eq_refl) as (_ & _ & H).
  destruct (H [dq ++ "id" ++ dq ++ " : <integer> | ε"]) as [H1 H2].
  - intros r Hr. discriminate Hr.
  - reflexivity.
  - split; [exact H1 | exact (H2 eq_refl)].
Defined.

(** ** Termination *)

Lemma finished_cases {A : Type} (c : outcome A) :
  finished c <-> (exists a, c = Ret a) \/ (exists e, c = Raise e).
Proof.
  unfold finished. destruct c as [a | e |]; split; intros H; try discriminate; eauto.
  - now elim H.
  - destruct H as [[a H] | [e H]]; discriminate.
Qed.

Lemma refines_json_schema_to_gbnf (py : interpreter) (fuel extra : nat)
    (schema : json) :
  refines (json_schema_to_gbnf py fuel schema)
          (json_schema_to_gbnf py (extra + fuel) schema).
Proof.
  unfold json_schema_to_gbnf.
  destruct (negb (Py.is_dict schema)); [apply refines_refl |].
  apply refines_bind; [apply refines_refl | intros root_type].
  destruct (negb (Py.eq_str root_type "object")); [apply refines_refl |].
  destruct (proj1 (proj2 (proj2 (fuel_more py fuel extra))) schema) as [-> | ->];
    [now left | now right].
Qed.

(** C7.  On every document the compiler stops: with fuel for twice the
    document's nesting depth, [json_schema_to_gbnf] returns a fragment or
    raises an error, and more fuel gives the same outcome.  A reference is
    never followed: a property definition with [$ref] compiles in one call to
    the placeholder, whatever the reference names. *)
Theorem compile_terminates (py : interpreter) (schema : json) :
  ((exists fragment,
      json_schema_to_gbnf py (2 * height schema) schema = Ret fragment) \/
   (exists e, json_schema_to_gbnf py (2 * height schema) schema = Raise e)) /\
  (forall fuel, 2 * height schema <= fuel ->
     json_schema_to_gbnf py fuel schema
     = json_schema_to_gbnf py (2 * height schema) schema) /\
  (forall fuel name es target is_required,
     Py.dict_get "$ref" es = Some target ->
     process_property py (S fuel) name (JDict es) is_required = Ret "<ref>").
Proof.
  assert (Hf : finished (json_schema_to_gbnf py (2 * height schema) schema)).
  { unfold json_schema_to_gbnf.
    destruct schema as [| b | n | x | s | l | es]; try discriminate.
    cbn [Py.is_dict negb].
    apply finished_bind; [apply finished_get | intros root_type _].
    destruct (negb (Py.eq_str root_type "object")); [discriminate |].
    pose proof (proj1 (proj2 (proj2 (enough_fuel py (2 * height (JDict es)))))
                  (JDict es)) as Ho.
    assert (Hh : 1 <= height (JDict es)) by (simpl; lia).
    specialize (Ho Hh (le_n _)).
    destruct (process_object py (2 * height (JDict es)) (JDict es));
      [discriminate | discriminate | now elim Ho]. }
  refine (conj (proj1 (finished_cases _) Hf) (conj _ _)).
  - intros fuel Hle.
    replace fuel with ((fuel - 2 * height schema) + 2 * height schema) by lia.
    apply refines_finished; [apply refines_json_schema_to_gbnf | exact Hf].
  - intros fuel name es target is_required Hr.
    cbn [process_property Py.is_dict negb]. rewrite contains_dict, Hr.
    cbn [bind]. rewrite (getitem_dict _ _ _ Hr). reflexivity.
Qed.

Lemma compile_terminates_witness :
  json_schema_to_gbnf plain_interpreter 40 nested_schema
  = Ret ("{ " ++ dq ++ "tags" ++ dq ++ " : [{ <ref> }*] | ε }") /\
  process_property plain_interpreter 1 "kind" (JDict [("$ref", JStr "#")]) false
  = Ret "<ref>".
Proof.
  destruct (compile_terminates plain_interpreter nested_schema) as (_ & Hm & Hr).
  split.
  - rewrite (Hm 40); [reflexivity | vm_compute; lia].
  - exact (Hr 0 "kind" [("$ref", JStr "#")] (JStr "#") false eq_refl).
Defined.

(** ** How members end *)

Lemma bind_Ret {A B : Type} (c : outcome A) (k : A -> outcome B) (b : B) :
  bind c k = Ret b -> exists a, c = Ret a /\ k a = Ret b.
Proof. destruct c as [a | e |]; simpl; try discriminate. eauto. Qed.

Lemma append_assoc (a b c : string) : (a ++ b) ++ c = a ++ b ++ c.
Proof. induction a as [| x a IH]; simpl; [reflexivity | now rewrite IH]. Qed.

Lemma last_byte_append (s t : string) :
  t <> EmptyString -> last_byte (s ++ t) = last_byte t.
Proof.
  intros Ht. induction s as [| c s IH]; simpl; [reflexivity |].
  rewrite IH. destruct (s ++ t) eqn:E; [| reflexivity].
  destruct s; simpl in E; [contradiction | discriminate].
Qed.

Lemma last_byte_nonempty (s : string) (c : ascii) :
  last_byte s = Some c -> s <> EmptyString.
Proof. destruct s; [discriminate | discriminate]. Qed.

Lemma closed_append (s t : string) : closed t -> closed (s ++ t).
Proof.
  intros (c & Hl & Hc). exists c. split; [| exact Hc].
  rewrite last_byte_append; [exact Hl | now apply (last_byte_nonempty t c)].
Qed.

Lemma closed_literal (t : string) (c : ascii) :
  last_byte t = Some c -> closes_fragment c = true -> closed t.
Proof. intros H1 H2. exists c. now split. Qed.

Lemma closed_cons (c : ascii) (t : string) : closed t -> closed (String c t).
Proof. apply (closed_append (String c EmptyString) t). Qed.

Ltac close_literal :=
  repeat first
    [ solve [eapply closed_literal; reflexivity]
    | apply closed_append
    | apply closed_cons ].

Lemma process_string_closed (py : interpreter) (d : json) (fragment : string) :
  process_string py d = Ret fragment -> closed fragment.
Proof.
  unfold process_string. intros H.
  apply bind_Ret in H as (has_enum & _ & H). destruct has_enum.
  { apply bind_Ret in H as (values & _ & H).
    apply bind_Ret in H as (vs & _ & H). injection H as <-. close_literal. }
  apply bind_Ret in H as (has_pattern & _ & H). destruct has_pattern.
  { apply bind_Ret in H as (p & _ & H). injection H as <-. close_literal. }
  apply bind_Ret in H as (has_format & _ & H). destruct has_format.
  - apply bind_Ret in H as (f & _ & H).
    apply bind_Ret in H as (found & Hf & H).
    destruct found as [token |]; injection H as <-; [| close_literal].
    destruct f; try discriminate. unfold Py.table_get, formats in Hf.
    cbn [find fst] in Hf.
    repeat match type of Hf with
           | context [if ?c then _ else _] => destruct c
           end; simpl in Hf; inversion Hf; close_literal.
  - injection H as <-. close_literal.
Qed.

(** Every fragment [process_type] returns ends with [>], []], [}] or [l]. *)
Lemma process_type_closed (py : interpreter) (fuel : nat) (d : json)
    (fragment : string) :
  process_type py fuel d = Ret fragment -> closed fragment.
Proof.
  destruct fuel as [| fuel]; [discriminate |]. cbn [process_type]. intros H.
  apply bind_Ret in H as (has & _ & H). destruct (negb has); [discriminate |].
  apply bind_Ret in H as (ty & _ & H).
  apply bind_Ret in H as (found & _ & H).
  destruct found as [[] |]; try discriminate;
    try (injection H as <-; close_literal).
  - now apply process_string_closed in H.
  - destruct fuel as [| fuel]; [discriminate |]. cbn [process_array] in H.
    apply bind_Ret in H as (has_items & _ & H).
    destruct (negb has_items); [discriminate |].
    apply bind_Ret in H as (items & _ & H).
    apply bind_Ret in H as (it & _ & H).
    apply bind_Ret in H as (mn & _ & H).
    apply bind_Ret in H as (mx & _ & H).
    destruct (_ && _); [injection H as <-; close_literal |].
    destruct (_ && _); injection H as <-; close_literal.
  - destruct fuel as [| fuel]; [discriminate |]. cbn [process_object] in H.
    apply bind_Ret in H as (props & _ & H).
    apply bind_Ret in H as (rq & _ & H).
    apply bind_Ret in H as (required & _ & H).
    destruct (negb (Py.truthy props)); [injection H as <-; close_literal |].
    apply bind_Ret in H as (entries & _ & H).
    apply bind_Ret in H as (rules & _ & H).
    apply bind_Ret in H as (addl & _ & H).
    apply bind_Ret in H as (rules' & _ & H).
    injection H as <-. close_literal.
Qed.

Lemma marker_not_closed (front : string) : ~ closed (front ++ optional_marker).
Proof.
  intros (c & Hl & Hc).
  rewrite last_byte_append in Hl by discriminate.
  simpl in Hl. inversion Hl; subst c. discriminate Hc.
Qed.

(** X7.  For a property that is not given by reference, the member returned
    starts with the quoted name and [" : "], and ends with the optional marker
    exactly when the name is not required. *)
Lemma member_marker_iff_not_required (py : interpreter) (fuel : nat)
    (name : string) (es : list (string * json)) (is_required : bool)
    (member : string) :
  Py.dict_get "$ref" es = None ->
  process_property py fuel name (JDict es) is_required = Ret member ->
  (ends_with member optional_marker <-> is_required = false) /\
  starts_with member (dq ++ name ++ dq ++ " : ").
Proof.
  intros Hr H. destruct fuel as [| fuel]; [discriminate |].
  destruct (process_type py fuel (JDict es)) as [fragment | e |] eqn:Ht.
  - rewrite (process_property_member py fuel name es is_required fragment Hr Ht)
      in H.
    apply process_type_closed in Ht.
    assert (Ha : forall back,
               dq ++ name ++ dq ++ " : " ++ back
               = (dq ++ name ++ dq ++ " : ") ++ back)
      by (intros back; now rewrite !append_assoc).
    destruct is_required; injection H as <-; split.
    + split; [| discriminate]. intros [front Hf]. exfalso.
      apply (marker_not_closed front). rewrite <- Hf.
      repeat first [exact Ht | apply closed_append | apply closed_cons].
    + exists fragment. apply Ha.
    + split; [reflexivity |]. intros _.
      exists (dq ++ name ++ dq ++ " : " ++ fragment). reflexivity.
    + exists (fragment ++ optional_marker).
      rewrite <- Ha. now rewrite !append_assoc.
  - cbn [process_property Py.is_dict negb] in H.
    rewrite contains_dict, Hr in H. cbn [bind] in H. rewrite Ht in H. discriminate.
  - cbn [process_property Py.is_dict negb] in H.
    rewrite contains_dict, Hr in H. cbn [bind] in H. rewrite Ht in H. discriminate.
Qed.

(** * Further properties of the compiler *)

(** ** What the entry point can raise *)

(** X1.  Whatever happens inside, [json_schema_to_gbnf] raises nothing but
    [ValueError]: one of its own two rejections, or the text "Error processing
    schema: " followed by the text of what [process_object] raised
    ([TypeError] and [AttributeError] included). *)
Theorem entry_point_raises_only_ValueError (py : interpreter) (fuel : nat)
    (schema : json) (e : exn) :
  json_schema_to_gbnf py fuel schema = Raise e ->
  exists msg,
    e = ValueError msg /\
    (msg = "Schema must be a dictionary" \/
     msg = "Root schema must be an object type" \/
     exists cause,
       process_object py fuel schema = Raise cause /\
       msg = "Error processing schema: " ++ Py.exn_str py cause).
Proof.
  unfold json_schema_to_gbnf.
  destruct (negb (Py.is_dict schema)) eqn:Ed.
  { intros H; injection H as <-. eexists; split; [reflexivity | now left]. }
  destruct (Py.get schema "type" JNull) as [root_type | e' |] eqn:Eg; cbn [bind].
  - destruct (negb (Py.eq_str root_type "object")).
    { intros H; injection H as <-. eexists; split; [reflexivity | tauto]. }
    destruct (process_object py fuel schema) as [text | cause |];
      cbn [except_Exception]; try discriminate.
    intros H; injection H as <-. eexists; split; [reflexivity |].
    right; right. exists cause. now split.
  - destruct schema as [| | | | | | es]; try discriminate Ed. simpl in Eg.
    destruct (Py.dict_get "type" es); discriminate.
  - discriminate.
Qed.

Lemma entry_point_raises_only_ValueError_witness :
  exists msg,
    json_schema_to_gbnf plain_interpreter 3 object_with_union
    = Raise (ValueError msg).
Proof.
  destruct (entry_point_raises_only_ValueError plain_interpreter 3
              object_with_union
              (ValueError ("Error processing schema: "
                           ++ fault_text plain_interpreter
                                (TypeError (Unhashable
                                   (JList [JStr "string"; JStr "null"])))))
              eq_refl) as (msg & E & _).
  exists msg. rewrite <- E. reflexivity.
Defined.

(** ** The delimiters of a fragment *)

Lemma ends_with_last (front last : string) :
  ends_with (front ++ last) last.
Proof. now exists front. Qed.

Lemma process_object_delimited (py : interpreter) (fuel : nat) (d : json)
    (text : string) :
  process_object py fuel d = Ret text ->
  starts_with text "{" /\ ends_with text "}".
Proof.
  destruct fuel as [| fuel]; [discriminate |]. cbn [process_object]. intros H.
  apply bind_Ret in H as (props & _ & H).
  apply bind_Ret in H as (rq & _ & H).
  apply bind_Ret in H as (required & _ & H).
  destruct (negb (Py.truthy props)).
  { injection H as <-. split; [now exists "}" | now exists "{"]. }
  apply bind_Ret in H as (entries & _ & H).
  apply bind_Ret in H as (rules & _ & H).
  apply bind_Ret in H as (addl & _ & H).
  apply bind_Ret in H as (rules' & _ & H).
  injection H as <-. split.
  - now exists (" " ++ join ", " rules' ++ " }").
  - exists ("{ " ++ join ", " rules' ++ " ").
    now rewrite !append_assoc.
Qed.

Lemma entry_point_Ret (py : interpreter) (fuel : nat) (schema : json)
    (text : string) :
  json_schema_to_gbnf py fuel schema = Ret text ->
  process_object py fuel schema = Ret text.
Proof.
  unfold json_schema_to_gbnf.
  destruct (negb (Py.is_dict schema)); [discriminate |].
  intros H. apply bind_Ret in H as (root_type & _ & H).
  destruct (negb (Py.eq_str root_type "object")); [discriminate |].
  destruct (process_object py fuel schema) as [t | |]; try discriminate.
  exact H.
Qed.

(** X2.  Every text [process_object] returns, and so every text the entry
    point returns, opens with [{] and closes with [}]; every text
    [process_array] returns opens with [[] and closes with []]. *)
Theorem fragments_are_delimited (py : interpreter) (fuel : nat) (d : json)
    (text : string) :
  (process_object py fuel d = Ret text ->
   starts_with text "{" /\ ends_with text "}") /\
  (process_array py fuel d = Ret text ->
   starts_with text "[" /\ ends_with text "]") /\
  (json_schema_to_gbnf py fuel d = Ret text ->
   starts_with text "{" /\ ends_with text "}").
Proof.
  refine (conj (process_object_delimited py fuel d text) (conj _ _)).
  - destruct fuel as [| fuel]; [discriminate |]. cbn [process_array]. intros H.
    apply bind_Ret in H as (has_items & _ & H).
    destruct (negb has_items); [discriminate |].
    apply bind_Ret in H as (items & _ & H).
    apply bind_Ret in H as (it & _ & H).
    apply bind_Ret in H as (mn & _ & H).
    apply bind_Ret in H as (mx & _ & H).
    destruct (_ && _); [| destruct (_ && _)]; injection H as <-; split.
    + now exists (it ++ "*]").
    + exists ("[" ++ it ++ "*"). now rewrite !append_assoc.
    + now exists (it ++ "+]").
    + exists ("[" ++ it ++ "+"). now rewrite !append_assoc.
    + now exists (it ++ "]").
    + exists ("[" ++ it). now rewrite !append_assoc.
  - intros H. apply entry_point_Ret in H.
    now apply (process_object_delimited py fuel d text).
Qed.

Lemma fragments_are_delimited_witness :
  (starts_with "{}" "{" /\ ends_with "{}" "}") /\
  (starts_with "[<string>*]" "[" /\ ends_with "[<string>*]" "]").
Proof.
  split.
  - exact (proj1 (fragments_are_delimited plain_interpreter 1 bare_object "{}")
             eq_refl).
  - exact (proj1 (proj2 (fragments_are_delimited plain_interpreter 2 array_root
                           "[<string>*]")) eq_refl).
Defined.

(** ** Witnesses of the dispatch, array and member facts *)

Lemma process_type_fails_closed_witness :
  exists es s,
    string_node = JDict es /\ Py.dict_get "type" es = Some (JStr s) /\
    In s supported_types.
Proof.
  exact (process_type_fails_closed plain_interpreter 1 string_node "<string>"
           eq_refl).
Defined.

Lemma process_array_bounds_witness :
  process_array plain_interpreter 2 (JDict (array_min 0)) = Ret "[<string>*]" /\
  process_array plain_interpreter 2 (JDict (array_min 1)) = Ret "[<string>+]" /\
  process_array plain_interpreter 2 (JDict (array_min 2)) = Ret "[<string>]" /\
  process_array plain_interpreter 2 array_max_three = Ret "[<string>]".
Proof.
  pose proof (fun es => process_array_bounds plain_interpreter 1 es string_node
                          "<string>") as B.
  refine (conj _ (conj _ (conj _ _))).
  - exact (proj1 (proj1 (B (array_min 0) eq_refl eq_refl) eq_refl) eq_refl).
  - exact (proj1 (proj2 (proj1 (B (array_min 1) eq_refl eq_refl) eq_refl))
             eq_refl).
  - exact (proj2 (proj2 (proj1 (B (array_min 2) eq_refl eq_refl) eq_refl))
             eq_refl eq_refl).
  - refine (proj2 (B [("type", JStr "array"); ("items", string_node);
                      ("maxItems", JInt 3)] eq_refl eq_refl) 3%Z _ eq_refl).
    reflexivity.
Defined.

Lemma member_marker_iff_not_required_witness :
  (ends_with (dq ++ "name" ++ dq ++ " : <string> | ε") optional_marker
   <-> false = false) /\
  (ends_with (dq ++ "name" ++ dq ++ " : <string>") optional_marker
   <-> true = false).
Proof.
  split.
  - exact (proj1 (member_marker_iff_not_required plain_interpreter 2 "name"
                    [("type", JStr "string")] false _ eq_refl eq_refl)).
  - exact (proj1 (member_marker_iff_not_required plain_interpreter 2 "name"
                    [("type", JStr "string")] true _ eq_refl eq_refl)).
Defined.

(** ** Primitive types *)

(** X4.  A map whose [type] is integer, number, boolean or null compiles to
    the fixed token of that type, whatever else it declares: bounds, [enum],
    [format] and every other key are ignored. *)
Theorem primitive_types_ignore_constraints (py : interpreter) (fuel : nat)
    (es : list (string * json)) :
  (Py.dict_get "type" es = Some (JStr "integer") ->
   process_type py (S fuel) (JDict es) = Ret "<integer>") /\
  (Py.dict_get "type" es = Some (JStr "number") ->
   process_type py (S fuel) (JDict es) = Ret "<number>") /\
  (Py.dict_get "type" es = Some (JStr "boolean") ->
   process_type py (S fuel) (JDict es) = Ret "<boolean>") /\
  (Py.dict_get "type" es = Some (JStr "null") ->
   process_type py (S fuel) (JDict es) = Ret "null").
Proof.
  refine (conj _ (conj _ (conj _ _))); intros Ht; cbn [process_type];
    rewrite contains_dict, Ht; cbn [bind negb];
    rewrite (getitem_dict _ _ _ Ht); reflexivity.
Qed.

Lemma primitive_types_ignore_constraints_witness :
  process_type plain_interpreter 1 (JDict bounded_integer) = Ret "<integer>".
Proof.
  exact (proj1 (primitive_types_ignore_constraints plain_interpreter 0
                  bounded_integer) eq_refl).
Defined.

(** ** Arrays without items *)

(** X5.  A map of type array without [items] raises "Array definition missing
    items" from [process_array] and from [process_type], whatever its bounds;
    as a property of an object the error is wrapped with the property's
    name. *)
Theorem array_needs_items (py : interpreter) (fuel : nat)
    (es : list (string * json)) :
  Py.dict_get "items" es = None ->
  process_array py (S fuel) (JDict es) = Raise MissingItems /\
  (Py.dict_get "type" es = Some (JStr "array") ->
   process_type py (S (S fuel)) (JDict es) = Raise MissingItems /\
   forall name required,
     Py.dict_get "$ref" es = None ->
     try_property (process_property py (S (S (S fuel)))) required name
       (JDict es)
     = Raise (PropertyError name "Array definition missing items")).
Proof.
  intros Hi.
  assert (Ha : forall n, process_array py (S n) (JDict es) = Raise MissingItems).
  { intros n. cbn [process_array]. now rewrite contains_dict, Hi. }
  split; [apply Ha |]. intros Ht.
  assert (Hp : process_type py (S (S fuel)) (JDict es) = Raise MissingItems).
  { cbn [process_type]. rewrite contains_dict, Ht. cbn [bind negb].
    rewrite (getitem_dict _ _ _ Ht). cbn [bind Py.table_get type_handlers].
    apply Ha. }
  split; [exact Hp |]. intros name required Hr.
  unfold try_property. cbn [process_property Py.is_dict negb].
  rewrite contains_dict, Hr. cbn [bind]. rewrite Hp. reflexivity.
Qed.

Lemma array_needs_items_witness :
  process_array plain_interpreter 1 (JDict array_without_items)
  = Raise MissingItems /\
  process_type plain_interpreter 2 (JDict array_without_items)
  = Raise MissingItems.
Proof.
  destruct (array_needs_items plain_interpreter 0 array_without_items eq_refl)
    as [H1 H2].
  exact (conj H1 (proj1 (H2 eq_refl))).
Defined.

(** ** The rejections of the dispatch *)

(** X8.  The three ways [process_type] rejects a map: without [type] it
    raises "Missing type in definition"; with a scalar [type] that is none of
    the seven supported names it raises "Unsupported type: " followed by the
    value's text (names are compared exactly, so "String" is rejected); with a
    list or a map as [type] it raises [TypeError]. *)
Theorem dispatch_rejections (py : interpreter) (fuel : nat)
    (es : list (string * json)) :
  (Py.dict_get "type" es = None ->
   process_type py (S fuel) (JDict es)
   = Raise (ValueError "Missing type in definition")) /\
  (forall ty, Py.dict_get "type" es = Some ty -> Py.hashable ty = true ->
     (forall s, In s supported_types -> ty <> JStr s) ->
     process_type py (S fuel) (JDict es)
     = Raise (ValueError ("Unsupported type: " ++ Py.str py ty))) /\
  (forall ty, Py.dict_get "type" es = Some ty -> Py.hashable ty = false ->
     process_type py (S fuel) (JDict es) = Raise (TypeError (Unhashable ty))).
Proof.
  refine (conj _ (conj _ _)).
  - intros Hn. cbn [process_type]. now rewrite contains_dict, Hn.
  - intros ty Ht Hh Hs. cbn [process_type]. rewrite contains_dict, Ht.
    cbn [bind negb]. rewrite (getitem_dict _ _ _ Ht). cbn [bind].
    now rewrite (table_get_handlers ty Hh Hs).
  - intros ty Ht Hh. cbn [process_type]. rewrite contains_dict, Ht.
    cbn [bind negb]. rewrite (getitem_dict _ _ _ Ht). cbn [bind].
    destruct ty; try discriminate; reflexivity.
Qed.

Lemma dispatch_rejections_witness :
  process_type plain_interpreter 1 (JDict [("title", JStr "x")])
  = Raise (ValueError "Missing type in definition") /\
  process_type plain_interpreter 1 (JDict [("type", JStr "String")])
  = Raise (ValueError "Unsupported type: String") /\
  process_type plain_interpreter 1 nullable_string
  = Raise (TypeError (Unhashable (JList [JStr "string"; JStr "null"]))).
Proof.
  refine (conj _ (conj _ _)).
  - exact (proj1 (dispatch_rejections plain_interpreter 0
                    [("title", JStr "x")]) eq_refl).
  - refine (proj1 (proj2 (dispatch_rejections plain_interpreter 0
                            [("type", JStr "String")]))
              (JStr "String") eq_refl eq_refl _).
    intros s Hs E. injection E as <-. simpl in Hs.
    repeat (destruct Hs as [Hs | Hs]; [discriminate Hs |]). exact Hs.
  - exact (proj2 (proj2 (dispatch_rejections plain_interpreter 0
                           [("type", JList [JStr "string"; JStr "null"])]))
             (JList [JStr "string"; JStr "null"]) eq_refl eq_refl).
Defined.

(** ** Members follow the declaration order *)

Lemma try_property_Ret (py : interpreter) (fuel : nat) (required : list json)
    (name : string) (prop : json) (member : string) :
  try_property (process_property py fuel) required name prop = Ret member <->
  process_property py fuel name prop (Py.set_mem name required) = Ret member.
Proof.
  unfold try_property.
  destruct (process_property py fuel name prop (Py.set_mem name required))
    as [m | [] |]; simpl; split; intros H; try discriminate; exact H.
Qed.

(** X9.  The loop of [process_object] succeeds exactly when every declared
    property compiles, and its members are then the compiled properties, one
    per property and in the order of declaration. *)
Theorem members_follow_declaration_order (py : interpreter) (fuel : nat)
    (es entries : list (string * json)) (members : list string) :
  property_rules py fuel es entries = Ret members <->
  Forall2
    (fun entry member =>
       process_property py fuel (fst entry) (snd entry)
         (Py.set_mem (fst entry) (required_set es)) = Ret member)
    entries members.
Proof.
  unfold property_rules. revert members.
  induction entries as [| [name prop] rest IH]; intros members; simpl.
  - split.
    + intros H; injection H as <-. constructor.
    + intros H; inversion H. reflexivity.
  - split.
    + intros H. apply bind_Ret in H as (rule & Hr & H).
      apply bind_Ret in H as (rules & Hs & H). injection H as <-.
      constructor; [now apply try_property_Ret | now apply IH].
    + intros H. inversion H as [| entry member rest' members' Hm Hrest]; subst.
      simpl in Hm. apply try_property_Ret in Hm. rewrite Hm. cbn [bind].
      apply IH in Hrest. rewrite Hrest. reflexivity.
Qed.

Lemma members_follow_declaration_order_witness :
  Forall2
    (fun entry member =>
       process_property plain_interpreter 2 (fst entry) (snd entry)
         (Py.set_mem (fst entry) (required_set (record_with (JDict []))))
       = Ret member)
    two_properties
    [dq ++ "id" ++ dq ++ " : <integer>"; dq ++ "name" ++ dq ++ " : <string> | ε"].
Proof.
  exact (proj1 (members_follow_declaration_order plain_interpreter 2
                  (record_with (JDict [])) two_properties _) eq_refl).
Defined.

(** ** Which part of [required] matters *)

Lemma for_each_agree (b b' : string -> json -> outcome string)
    (entries : list (string * json)) :
  (forall name prop, In (name, prop) entries -> b name prop = b' name prop) ->
  for_each_property b entries = for_each_property b' entries.
Proof.
  induction entries as [| [name prop] rest IH]; simpl; intros H; [reflexivity |].
  rewrite (H name prop) by now left.
  rewrite IH by (intros; apply H; now right). reflexivity.
Qed.

Lemma process_object_falsy_properties (py : interpreter) (fuel : nat)
    (es : list (string * json)) (properties : json) :
  Py.get (JDict es) "properties" (JDict []) = Ret properties ->
  Py.truthy properties = false ->
  required_usable es ->
  process_object py (S fuel) (JDict es) = Ret "{}".
Proof.
  intros Hg Ht Hr. cbn [process_object]. rewrite Hg. cbn [bind].
  pose proof (required_set_eq es Hr) as Hs.
  destruct (Py.get (JDict es) "required" (JList [])) as [r | e |];
    simpl in Hs; try discriminate.
  cbn [bind]. rewrite Hs. cbn [bind]. now rewrite Ht.
Qed.

(** X10.  [required] matters only through the declared property names it
    holds: two object nodes with the same [properties] and the same
    [additionalProperties], whose [required] agree on every declared name,
    compile to the same outcome.  A required name that no property declares
    changes nothing. *)
Theorem undeclared_required_names_are_ignored (py : interpreter) (fuel : nat)
    (es es' entries : list (string * json)) :
  Py.dict_get "properties" es = Some (JDict entries) ->
  Py.dict_get "properties" es' = Some (JDict entries) ->
  Py.dict_get "additionalProperties" es = Py.dict_get "additionalProperties" es' ->
  required_usable es -> required_usable es' ->
  (forall name prop, In (name, prop) entries ->
     Py.set_mem name (required_set es) = Py.set_mem name (required_set es')) ->
  process_object py fuel (JDict es) = process_object py fuel (JDict es').
Proof.
  intros Hp Hp' Ha Hr Hr' Hagree.
  destruct fuel as [| fuel]; [reflexivity |].
  destruct entries as [| entry rest].
  - rewrite (process_object_falsy_properties py fuel es (JDict []))
      by (try exact Hr; try reflexivity; simpl; now rewrite Hp).
    rewrite (process_object_falsy_properties py fuel es' (JDict []))
      by (try exact Hr'; try reflexivity; simpl; now rewrite Hp').
    reflexivity.
  - rewrite (process_object_loop py fuel es _ Hp) by (discriminate || exact Hr).
    rewrite (process_object_loop py fuel es' _ Hp') by (discriminate || exact Hr').
    unfold property_rules.
    rewrite (for_each_agree
               (try_property (process_property py fuel) (required_set es))
               (try_property (process_property py fuel) (required_set es'))).
    + cbn [Py.get]. rewrite Ha. reflexivity.
    + intros name prop Hin. unfold try_property. now rewrite (Hagree name prop Hin).
Qed.

Lemma undeclared_required_names_are_ignored_witness :
  process_object plain_interpreter 3
    (JDict (record_requiring (JList [JStr "id"])))
  = process_object plain_interpreter 3
      (JDict (record_requiring (JList [JStr "ghost"; JStr "id"; JStr "phantom"]))).
Proof.
  apply (undeclared_required_names_are_ignored plain_interpreter 3
           (record_requiring (JList [JStr "id"]))
           (record_requiring (JList [JStr "ghost"; JStr "id"; JStr "phantom"]))
           two_properties eq_refl eq_refl eq_refl).
  - intros r Hr. injection Hr as <-. eexists. reflexivity.
  - intros r Hr. injection Hr as <-. eexists. reflexivity.
  - intros name prop [E | [E | []]]; injection E as <- <-; reflexivity.
Defined.

(** ** Which error an object reports *)

(** X11.  The first property that fails decides what [process_object]
    raises, whatever the properties after it hold: a [ValueError] comes out as
    "Error processing property 'NAME': " followed by its message; any other
    exception comes out unchanged, without the name. *)
Theorem first_failing_property_is_reported (py : interpreter) (fuel : nat)
    (es before after : list (string * json)) (name : string) (prop : json)
    (members : list string) :
  Py.dict_get "properties" es
  = Some (JDict (before ++ (name, prop) :: after)%list) ->
  required_usable es ->
  property_rules py fuel es before = Ret members ->
  (forall msg,
     process_property py fuel name prop (Py.set_mem name (required_set es))
     = Raise (ValueError msg) ->
     process_object py (S fuel) (JDict es) = Raise (PropertyError name msg)) /\
  (forall e,
     process_property py fuel name prop (Py.set_mem name (required_set es))
     = Raise e ->
     (forall msg, e <> ValueError msg) ->
     process_object py (S fuel) (JDict es) = Raise e).
Proof.
  intros Hp Hr Hm.
  assert (Hl : forall e,
             try_property (process_property py fuel) (required_set es) name prop
             = Raise e ->
             process_object py (S fuel) (JDict es) = Raise e).
  { intros e He.
    rewrite (process_object_loop py fuel es _ Hp);
      [| now destruct before | exact Hr].
    unfold property_rules in *.
    now rewrite (for_each_raises _ before after name prop members e Hm He). }
  split.
  - intros msg H. apply Hl. unfold try_property. now rewrite H.
  - intros e H Hn. apply Hl. unfold try_property. rewrite H.
    destruct e as [msg | | |]; [now elim (Hn msg) | reflexivity ..].
Qed.

Lemma first_failing_property_is_reported_witness :
  process_object plain_interpreter 4 (JDict (object_of (JDict two_faults)))
  = Raise (PropertyError "tags" "Array definition missing items") /\
  process_object plain_interpreter 4 object_with_union
  = Raise (TypeError (Unhashable (JList [JStr "string"; JStr "null"]))).
Proof.
  split.
  - refine (proj1 (first_failing_property_is_reported plain_interpreter 3
                     (object_of (JDict two_faults))
                     [("id", JDict [("type", JStr "integer")])]
                     [("name", JInt 7)] "tags" (JDict [("type", JStr "array")])
                     _ eq_refl _ eq_refl)
              "Array definition missing items" eq_refl).
    intros r Hr. discriminate Hr.
  - refine (proj2 (first_failing_property_is_reported plain_interpreter 3
                     [("type", JStr "object");
                      ("properties", JDict [("nick", nullable_string)])]
                     [] [] "nick" nullable_string _ eq_refl _ eq_refl)
              (TypeError (Unhashable (JList [JStr "string"; JStr "null"])))
              eq_refl _).
    + intros r Hr. discriminate Hr.
    + intros msg E. discriminate E.
Defined.

(** X12.  Only the loop over the properties adds a name to an error.  What
    compiling [items] raises, [process_array] raises unchanged; what compiling
    a schema given as [additionalProperties] raises, [process_object] raises
    unchanged; and what [process_type] raises on a property definition,
    [process_property] raises unchanged. *)
Theorem inner_errors_pass_unchanged (py : interpreter) (fuel : nat) (e : exn) :
  (forall es items,
     Py.dict_get "items" es = Some items ->
     process_type py fuel items = Raise e ->
     process_array py (S fuel) (JDict es) = Raise e) /\
  (forall es entries members a,
     Py.dict_get "properties" es = Some (JDict entries) -> entries <> [] ->
     required_usable es ->
     property_rules py fuel es entries = Ret members ->
     Py.dict_get "additionalProperties" es = Some a ->
     Py.truthy a = true -> Py.is_bool a = false ->
     process_type py fuel a = Raise e ->
     process_object py (S fuel) (JDict es) = Raise e) /\
  (forall es name is_required,
     Py.dict_get "$ref" es = None ->
     process_type py fuel (JDict es) = Raise e ->
     process_property py (S fuel) name (JDict es) is_required = Raise e).
Proof.
  refine (conj _ (conj _ _)).
  - intros es items Hi Ht. cbn [process_array]. rewrite contains_dict, Hi.
    cbn [bind negb]. rewrite (getitem_dict _ _ _ Hi). cbn [bind].
    now rewrite Ht.
  - intros es entries members a Hp Hne Hr Hm Ha Htr Hb Ht.
    rewrite (process_object_loop py fuel es entries Hp Hne Hr), Hm.
    cbn [bind Py.get]. rewrite Ha. cbn [bind]. rewrite Htr.
    destruct a; try discriminate; now rewrite Ht.
  - intros es name is_required Hr Ht. cbn [process_property Py.is_dict negb].
    rewrite contains_dict, Hr. cbn [bind]. now rewrite Ht.
Qed.

Lemma inner_errors_pass_unchanged_witness :
  process_array plain_interpreter 2 (JDict array_of_text)
  = Raise (ValueError "Unsupported type: text") /\
  process_object plain_interpreter 3
    (JDict (record_with (JDict [("type", JStr "text")])))
  = Raise (ValueError "Unsupported type: text") /\
  process_property plain_interpreter 2 "nick" (JDict [("type", JStr "text")]) true
  = Raise (ValueError "Unsupported type: text").
Proof.
  refine (conj _ (conj _ _)).
  - exact (proj1 (inner_errors_pass_unchanged plain_interpreter 1
                    (ValueError "Unsupported type: text"))
             array_of_text (JDict [("type", JStr "text")]) eq_refl eq_refl).
  - refine (proj1 (proj2 (inner_errors_pass_unchanged plain_interpreter 2
                            (ValueError "Unsupported type: text")))
              (record_with (JDict [("type", JStr "text")])) two_properties _
              (JDict [("type", JStr "text")]) eq_refl _ _ eq_refl eq_refl
              eq_refl eq_refl eq_refl).
    + discriminate.
    + intros r Hr. injection Hr as <-. eexists. reflexivity.
  - exact (proj2 (proj2 (inner_errors_pass_unchanged plain_interpreter 1
                           (ValueError "Unsupported type: text")))
             [("type", JStr "text")] "nick" true eq_refl eq_refl).
Defined.

(** ** A [properties] that is not a map *)

(** X13.  When [properties] is declared and is not a map, an object node
    compiles to [{}] if the value is falsy (null, false, 0, an empty str or
    list) and raises [AttributeError] otherwise: the value has no [items]. *)
Theorem properties_that_are_no_map (py : interpreter) (fuel : nat)
    (es : list (string * json)) (properties : json) :
  Py.dict_get "properties" es = Some properties ->
  Py.is_dict properties = false ->
  required_usable es ->
  (Py.truthy properties = false ->
   process_object py (S fuel) (JDict es) = Ret "{}") /\
  (Py.truthy properties = true ->
   process_object py (S fuel) (JDict es)
   = Raise (AttributeError properties "items")).
Proof.
  intros Hp Hd Hr.
  assert (Hg : Py.get (JDict es) "properties" (JDict []) = Ret properties)
    by (simpl; now rewrite Hp).
  split; intros Ht.
  - now apply (process_object_falsy_properties py fuel es properties).
  - cbn [process_object]. rewrite Hg. cbn [bind].
    pose proof (required_set_eq es Hr) as Hs.
    destruct (Py.get (JDict es) "required" (JList [])) as [r | e |];
      simpl in Hs; try discriminate.
    cbn [bind]. rewrite Hs. cbn [bind]. rewrite Ht. cbn [negb].
    destruct properties; try discriminate; reflexivity.
Qed.

Lemma properties_that_are_no_map_witness :
  process_object plain_interpreter 1 (JDict (object_of JNull)) = Ret "{}" /\
  process_object plain_interpreter 1 (JDict (object_of (JList [JStr "id"])))
  = Raise (AttributeError (JList [JStr "id"]) "items").
Proof.
  split.
  - refine (proj1 (properties_that_are_no_map plain_interpreter 0
                     (object_of JNull) JNull eq_refl eq_refl _) eq_refl).
    intros r Hr. discriminate Hr.
  - refine (proj2 (properties_that_are_no_map plain_interpreter 0
                     (object_of (JList [JStr "id"])) (JList [JStr "id"])
                     eq_refl eq_refl _) eq_refl).
    intros r Hr. discriminate Hr.
Defined.

(** * The formatting step of [main] *)

(** ** Replacement *)

Lemma replace_from_skip (old new : string) (k : nat) (c : ascii) (rest : string) :
  replace_from old new (S k) (String c rest) = replace_from old new k rest.
Proof. reflexivity. Qed.

Lemma replace_from_scan (old new : string) (c : ascii) (rest : string) :
  replace_from old new 0 (String c rest)
  = if prefix old (String c rest)
    then new ++ replace_from old new (String.length old - 1) rest
    else String c (replace_from old new 0 rest).
Proof. reflexivity. Qed.

(** Where [old] starts with a character that the text before does not end
    an occurrence on, the text before and the text after are replaced
    independently: no occurrence of [old] that begins in [a] can reach [x]
    unless [x] is a character [old] continues with. *)
Lemma replace_from_app (old new : string) (o x : ascii) (t : string) :
  (forall y rest, prefix (String o old) (String y (rest ++ String x t))
                  = prefix (String o old) (String y rest)) ->
  forall a skip, skip <= String.length a ->
    (forall y rest, prefix (String o old) (String y rest) = true ->
                    String.length old <= String.length rest) ->
    replace_from (String o old) new skip (a ++ String x t)
    = replace_from (String o old) new skip a
      ++ replace_from (String o old) new 0 (String x t).
Proof.
  intros Hx a. induction a as [| y a IH]; intros skip Hs Hlen.
  - simpl in Hs. replace skip with 0 by lia. reflexivity.
  - destruct skip as [| k].
    + change (String y a ++ String x t) with (String y (a ++ String x t)).
      rewrite !replace_from_scan, Hx.
      destruct (prefix (String o old) (String y a)) eqn:Ep.
      * rewrite append_assoc. f_equal. apply IH; [| exact Hlen].
        apply Hlen in Ep. simpl. lia.
      * simpl. f_equal. apply IH; [lia | exact Hlen].
    + change (String y a ++ String x t) with (String y (a ++ String x t)).
      rewrite !replace_from_skip. apply IH; [simpl in Hs; lia | exact Hlen].
Qed.

Lemma prefix_length (p s : string) :
  prefix p s = true -> String.length p <= String.length s.
Proof.
  revert s. induction p as [| c p IH]; intros s; [simpl; lia |].
  destruct s as [| d s]; simpl; [discriminate |].
  destruct (ascii_dec c d); [| discriminate].
  intros H. apply IH in H. lia.
Qed.

(** A single character is replaced everywhere, and independently on the two
    parts of a text. *)
Lemma replace_char_app (c : ascii) (new a b : string) :
  replace_from (String c EmptyString) new 0 (a ++ b)
  = replace_from (String c EmptyString) new 0 a
    ++ replace_from (String c EmptyString) new 0 b.
Proof.
  induction a as [| y a IH]; [reflexivity |].
  change (String y a ++ b) with (String y (a ++ b)).
  rewrite !replace_from_scan. cbn [prefix String.length Nat.sub].
  destruct (ascii_dec c y).
  - destruct (a ++ b), a; cbn [prefix]; rewrite append_assoc; f_equal; exact IH.
  - simpl. f_equal. exact IH.
Qed.

(** Text in which [old] never starts is left as it is. *)
Lemma replace_from_plain (o : ascii) (old new s : string) :
  plain_char o = false -> plain s = true ->
  replace_from (String o old) new 0 s = s.
Proof.
  intros Ho. induction s as [| y s IH]; [reflexivity |].
  simpl plain. intros H. apply andb_prop in H as [Hy Hs].
  rewrite replace_from_scan. cbn [prefix].
  destruct (ascii_dec o y) as [-> | _]; [congruence |].
  f_equal. now apply IH.
Qed.

Lemma plain_append (a b : string) : plain (a ++ b) = plain a && plain b.
Proof.
  induction a as [| c a IH]; simpl; [reflexivity |].
  now rewrite IH, andb_assoc.
Qed.

Lemma comma_space_boundary (x : ascii) (t : string) :
  x <> " "%char ->
  forall y rest,
    prefix ", " (String y (rest ++ String x t)) = prefix ", " (String y rest).
Proof.
  intros Hx y rest. cbn [prefix]. destruct (ascii_dec "," y); [| reflexivity].
  destruct rest as [| z rest]; cbn [append prefix].
  - destruct (ascii_dec " " x) as [E |]; [now elim Hx | reflexivity].
  - destruct (ascii_dec " " z); [destruct rest; reflexivity | reflexivity].
Qed.

(** The separator [", "] is replaced independently before and after a
    character that is not a space. *)
Lemma replace_comma_app (new : string) (x : ascii) (t a : string) :
  x <> " "%char ->
  replace_from ", " new 0 (a ++ String x t)
  = replace_from ", " new 0 a ++ replace_from ", " new 0 (String x t).
Proof.
  intros Hx.
  apply (replace_from_app " " new "," x t (comma_space_boundary x t Hx) a 0);
    [lia |].
  intros y rest H. apply prefix_length in H. simpl in *. lia.
Qed.

Lemma prefix_empty (s : string) : prefix EmptyString s = true.
Proof. destruct s; reflexivity. Qed.

Lemma replace_char_hit (c : ascii) (new rest : string) :
  replace_from (String c EmptyString) new 0 (String c rest)
  = new ++ replace_from (String c EmptyString) new 0 rest.
Proof.
  rewrite replace_from_scan. cbn [prefix].
  destruct (ascii_dec c c) as [_ | N]; [| now elim N].
  now rewrite prefix_empty.
Qed.

Lemma replace_comma_hit (new rest : string) :
  replace_from ", " new 0 (String "," (String " " rest))
  = new ++ replace_from ", " new 0 rest.
Proof.
  rewrite replace_from_scan.
  replace (prefix ", " (String "," (String " " rest))) with true
    by (symmetry; apply (prefix_empty rest)).
  reflexivity.
Qed.

(** ** What the formatting does to each part of a text *)

Lemma pretty_open (a b : string) :
  pretty (a ++ "{" ++ b) = pretty a ++ ("{" ++ nl ++ "  ") ++ pretty b.
Proof.
  unfold pretty, str_replace.
  set (N1 := "{" ++ nl ++ "  "). set (N2 := nl ++ "}").
  set (N3 := "," ++ nl ++ "  ").
  rewrite (replace_char_app "{" N1 a).
  change ("{" ++ b) with (String "{" b). rewrite replace_char_hit.
  rewrite (replace_char_app "}" N2), (replace_char_app "}" N2 N1).
  change (replace_from "}" N2 0 N1) with N1.
  set (A := replace_from "}" N2 0 (replace_from "{" N1 0 a)).
  set (B := replace_from "}" N2 0 (replace_from "{" N1 0 b)).
  change (N1 ++ B) with (String "{" (nl ++ "  " ++ B)).
  rewrite replace_comma_app by discriminate. reflexivity.
Qed.

Lemma pretty_close (a b : string) :
  pretty (a ++ "}" ++ b) = pretty a ++ (nl ++ "}") ++ pretty b.
Proof.
  unfold pretty, str_replace.
  set (N1 := "{" ++ nl ++ "  "). set (N2 := nl ++ "}").
  set (N3 := "," ++ nl ++ "  ").
  rewrite (replace_char_app "{" N1 a).
  change (replace_from "{" N1 0 ("}" ++ b))
    with (String "}" (replace_from "{" N1 0 b)).
  rewrite (replace_char_app "}" N2), replace_char_hit.
  set (A := replace_from "}" N2 0 (replace_from "{" N1 0 a)).
  set (B := replace_from "}" N2 0 (replace_from "{" N1 0 b)).
  change (N2 ++ B) with (String (ascii_of_nat 10) ("}" ++ B)).
  rewrite replace_comma_app by discriminate. reflexivity.
Qed.

Lemma pretty_separator (a b : string) :
  pretty (a ++ ", " ++ b) = pretty a ++ ("," ++ nl ++ "  ") ++ pretty b.
Proof.
  unfold pretty, str_replace.
  set (N1 := "{" ++ nl ++ "  "). set (N2 := nl ++ "}").
  set (N3 := "," ++ nl ++ "  ").
  rewrite (replace_char_app "{" N1 a).
  change (replace_from "{" N1 0 (", " ++ b))
    with (", " ++ replace_from "{" N1 0 b).
  rewrite (replace_char_app "}" N2).
  change (replace_from "}" N2 0 (", " ++ replace_from "{" N1 0 b))
    with (", " ++ replace_from "}" N2 0 (replace_from "{" N1 0 b)).
  set (A := replace_from "}" N2 0 (replace_from "{" N1 0 a)).
  set (B := replace_from "}" N2 0 (replace_from "{" N1 0 b)).
  change (", " ++ B) with (String "," (String " " B)).
  rewrite replace_comma_app by discriminate.
  now rewrite replace_comma_hit.
Qed.

(** X14.  The formatting acts on every opening brace, every closing brace
    and every [", "] of the text, each on its own, also inside quoted names
    and pattern text: the brace gets a line break and two spaces after it, the
    closing brace a line break before it, and [", "] becomes a comma, a line
    break and two spaces; the text before and the text after are formatted
    independently. *)
Theorem pretty_acts_locally (a b : string) :
  pretty (a ++ "{" ++ b) = pretty a ++ ("{" ++ nl ++ "  ") ++ pretty b /\
  pretty (a ++ "}" ++ b) = pretty a ++ (nl ++ "}") ++ pretty b /\
  pretty (a ++ ", " ++ b) = pretty a ++ ("," ++ nl ++ "  ") ++ pretty b.
Proof.
  split; [apply pretty_open | split].
  - apply pretty_close.
  - apply pretty_separator.
Qed.

Lemma pretty_plain (s : string) : plain s = true -> pretty s = s.
Proof.
  intros H. unfold pretty, str_replace.
  rewrite (replace_from_plain "{") by (reflexivity || exact H).
  rewrite (replace_from_plain "}") by (reflexivity || exact H).
  now rewrite (replace_from_plain ",") by (reflexivity || exact H).
Qed.

(** ** When the formatting changes a text *)

Lemma prefix_split (p s : string) :
  prefix p s = true -> exists b, s = p ++ b.
Proof.
  revert s. induction p as [| c p IH]; intros s H; [now exists s |].
  destruct s as [| d s]; simpl in H; [discriminate |].
  destruct (ascii_dec c d) as [<- |]; [| discriminate].
  destruct (IH s H) as [b ->]. now exists b.
Qed.

Lemma str_contains_split (p s : string) :
  str_contains p s = true -> exists a b, s = a ++ p ++ b.
Proof.
  induction s as [| c s IH]; cbn [str_contains]; intros H.
  - rewrite orb_false_r in H. apply prefix_split in H as [b ->].
    now exists EmptyString, b.
  - apply orb_prop in H as [H | H].
    + apply prefix_split in H as [b ->]. now exists EmptyString, b.
    + destruct (IH H) as (a & b & ->). now exists (String c a), b.
Qed.

Lemma replace_from_absent (old new s : string) :
  str_contains old s = false -> replace_from old new 0 s = s.
Proof.
  induction s as [| c s IH]; [reflexivity |].
  cbn [str_contains]. intros H. apply orb_false_elim in H as [Hp Hs].
  rewrite replace_from_scan, Hp. f_equal. now apply IH.
Qed.

Lemma replace_from_length (old new : string) (s : string) :
  1 <= String.length old -> String.length old <= String.length new ->
  forall skip,
    String.length s <= String.length (replace_from old new skip s) + skip.
Proof.
  intros Ho Hn. induction s as [| c s IH]; intros skip; [simpl; lia |].
  destruct skip as [| k].
  - rewrite replace_from_scan.
    destruct (prefix old (String c s)).
    + rewrite length_append. specialize (IH (String.length old - 1)).
      cbn [String.length]. lia.
    + specialize (IH 0). cbn [String.length]. lia.
  - rewrite replace_from_skip. specialize (IH k). cbn [String.length]. lia.
Qed.

Lemma pretty_length (s : string) : String.length s <= String.length (pretty s).
Proof.
  unfold pretty, str_replace.
  set (N1 := "{" ++ nl ++ "  "). set (N2 := nl ++ "}").
  set (N3 := "," ++ nl ++ "  ").
  pose proof (replace_from_length "{" N1 s) as H1.
  pose proof (replace_from_length "}" N2 (replace_from "{" N1 0 s)) as H2.
  pose proof (replace_from_length ", " N3
                (replace_from "}" N2 0 (replace_from "{" N1 0 s))) as H3.
  specialize (H1 ltac:(simpl; lia) ltac:(simpl; lia) 0).
  specialize (H2 ltac:(simpl; lia) ltac:(simpl; lia) 0).
  specialize (H3 ltac:(simpl; lia) ltac:(simpl; lia) 0). lia.
Qed.

(** X15.  The formatting never shortens a text, and it leaves a text as it
    is exactly when the text holds no opening brace, no closing brace and no
    [", "]: every text that has one of them is changed, wherever it stands. *)
Theorem pretty_changes_exactly_braces_and_separators (s : string) :
  String.length s <= String.length (pretty s) /\
  (pretty s = s <->
   str_contains "{" s = false /\ str_contains "}" s = false /\
   str_contains ", " s = false).
Proof.
  split; [apply pretty_length |]. split.
  - intros E.
    assert (Hgrow : forall p new a b,
               s = a ++ p ++ b ->
               pretty s = pretty a ++ new ++ pretty b ->
               String.length p < String.length new -> False).
    { intros p new a b Hs Hp Hl. rewrite E in Hp.
      apply (f_equal String.length) in Hp. rewrite Hs in Hp at 1.
      rewrite !length_append in Hp.
      pose proof (pretty_length a). pose proof (pretty_length b). lia. }
    refine (conj _ (conj _ _)).
    + destruct (str_contains "{" s) eqn:Ec; [exfalso | reflexivity].
      apply str_contains_split in Ec as (a & b & Hs).
      apply (Hgrow "{" ("{" ++ nl ++ "  ") a b Hs);
        [rewrite Hs; apply pretty_open | simpl; lia].
    + destruct (str_contains "}" s) eqn:Ec; [exfalso | reflexivity].
      apply str_contains_split in Ec as (a & b & Hs).
      apply (Hgrow "}" (nl ++ "}") a b Hs);
        [rewrite Hs; apply pretty_close | simpl; lia].
    + destruct (str_contains ", " s) eqn:Ec; [exfalso | reflexivity].
      apply str_contains_split in Ec as (a & b & Hs).
      apply (Hgrow ", " ("," ++ nl ++ "  ") a b Hs);
        [rewrite Hs; apply pretty_separator | simpl; lia].
  - intros (H1 & H2 & H3). unfold pretty, str_replace.
    now rewrite (replace_from_absent "{") by exact H1;
      rewrite (replace_from_absent "}") by exact H2;
      rewrite (replace_from_absent ", ") by exact H3.
Qed.

Lemma pretty_changes_exactly_braces_and_separators_witness :
  pretty "<pattern ^a,b$>" = "<pattern ^a,b$>" /\
  pretty "<pattern ^a{2}$>" <> "<pattern ^a{2}$>".
Proof.
  split.
  - apply (proj2 (proj2 (pretty_changes_exactly_braces_and_separators
                           "<pattern ^a,b$>"))).
    exact (conj eq_refl (conj eq_refl eq_refl)).
  - intros E.
    apply (proj1 (proj2 (pretty_changes_exactly_braces_and_separators
                           "<pattern ^a{2}$>"))) in E.
    destruct E as [E _]. discriminate E.
Defined.

(** ** The layout of a flat object *)

Lemma pretty_join (members : list string) :
  (forall m, In m members -> plain m = true) ->
  forall pre post, plain pre = true -> plain post = true ->
    pretty (pre ++ join ", " members ++ post)
    = pre ++ join ("," ++ nl ++ "  ") members ++ post.
Proof.
  induction members as [| m rest IH]; intros Hm pre post Hpre Hpost.
  - apply pretty_plain. cbn [join append].
    now rewrite plain_append, Hpre, Hpost.
  - destruct rest as [| m' rest].
    + apply pretty_plain. cbn [join].
      rewrite !plain_append, Hpre, Hpost, (Hm m) by now left. reflexivity.
    + change (join ", " (m :: m' :: rest))
        with (m ++ ", " ++ join ", " (m' :: rest)).
      change (join ("," ++ nl ++ "  ") (m :: m' :: rest))
        with (m ++ ("," ++ nl ++ "  ") ++ join ("," ++ nl ++ "  ") (m' :: rest)).
      replace (pre ++ (m ++ ", " ++ join ", " (m' :: rest)) ++ post)
        with ((pre ++ m) ++ ", " ++ (EmptyString ++ join ", " (m' :: rest) ++ post))
        by (now rewrite !append_assoc).
      rewrite pretty_separator.
      rewrite IH; [| intros x Hx; apply Hm; now right | reflexivity | exact Hpost].
      rewrite pretty_plain
        by (rewrite plain_append, Hpre, (Hm m (or_introl eq_refl)); reflexivity).
      now rewrite !append_assoc.
Qed.

(** X16.  An object text whose members hold no brace and no comma is laid
    out with one member per line: a line break after the opening brace, the
    first member behind three spaces and the others behind two, each but the
    last followed by a comma, and the closing brace on a line of its own after
    a space that is left at the end of the last member's line. *)
Theorem pretty_flat_object (members : list string) :
  (forall m, In m members -> plain m = true) ->
  pretty (braces members)
  = "{" ++ nl ++ "   " ++ join ("," ++ nl ++ "  ") members ++ " " ++ nl ++ "}".
Proof.
  intros Hm. unfold braces.
  replace ("{ " ++ join ", " members ++ " }")
    with (EmptyString ++ "{"
          ++ ((" " ++ join ", " members ++ " ") ++ "}" ++ EmptyString))
    by (now rewrite !append_assoc).
  rewrite pretty_open, pretty_close, (pretty_join members Hm " " " ")
    by reflexivity.
  change (pretty EmptyString) with EmptyString.
  now rewrite !append_assoc.
Qed.

Lemma pretty_flat_object_witness :
  pretty (braces [dq ++ "id" ++ dq ++ " : <integer>";
                  dq ++ "name" ++ dq ++ " : <string> | ε"])
  = "{" ++ nl ++ "   " ++ dq ++ "id" ++ dq ++ " : <integer>," ++ nl
    ++ "  " ++ dq ++ "name" ++ dq ++ " : <string> | ε " ++ nl ++ "}".
Proof.
  apply (pretty_flat_object [dq ++ "id" ++ dq ++ " : <integer>";
                             dq ++ "name" ++ dq ++ " : <string> | ε"]).
  intros m [<- | [<- | []]]; reflexivity.
Defined.

(** ** What [main] saves *)

(** X17.  For a schema that compiles, what [main] saves without [--pretty]
    is the compiled grammar itself; with [--pretty] it is never that text: it
    opens with the brace, a line break and two spaces, followed by the
    formatted rest of the grammar. *)
Theorem saved_text_of_a_compiled_schema (py : interpreter) (fuel : nat)
    (schema : json) (gbnf : string) :
  json_schema_to_gbnf py fuel schema = Ret gbnf ->
  formatted false gbnf = gbnf /\
  formatted true gbnf <> gbnf /\
  exists rest,
    gbnf = "{" ++ rest /\
    formatted true gbnf = "{" ++ nl ++ "  " ++ pretty rest.
Proof.
  intros H. apply entry_point_Ret in H.
  apply process_object_delimited in H as [[rest Hs] _].
  split; [reflexivity |]. unfold formatted.
  assert (Hp : pretty gbnf = "{" ++ nl ++ "  " ++ pretty rest).
  { rewrite Hs. exact (pretty_open EmptyString rest). }
  split; [| now exists rest].
  intros E. rewrite E in Hp. apply (f_equal String.length) in Hp.
  rewrite Hs in Hp at 1. pose proof (pretty_length rest).
  cbn [append String.length nl] in Hp. lia.
Qed.

Lemma saved_text_of_a_compiled_schema_witness :
  formatted false "{}" = "{}" /\
  formatted true "{}" <> "{}".
Proof.
  destruct (saved_text_of_a_compiled_schema plain_interpreter 1 bare_object
              "{}" eq_refl) as (H1 & H2 & _).
  exact (conj H1 H2).
Defined.
